(** * Website chatbot: crawler checks, chunker, embedding fallback, answer composer

    A shallow embedding of the Python sources

      - [utils.py]            ([validate_url])
      - [crawler.py]          ([WebsiteCrawler._is_valid_url])
      - [text_processor.py]   ([TextProcessor._clean_text], [process_and_chunk])
      - [vector_store.py]     ([SimpleEmbeddingFallback],
                               [VectorStoreManager._generate_collection_name])
      - [qa_engine.py]        ([QAEngine.ask_question], [_simple_answer])

    Python [str] values are sequences of characters, modelled as
    [list ascii]; a character is a code point below 256, and the character
    classes ([isspace], [lower]) are Python's on that range.  Library calls
    whose code is not part of the repository (the vector store, the HTTP
    client, the text splitter, [urlparse], numpy) are parameters of the
    model. *)

From Stdlib Require Import Ascii String Floats DecimalString.
From stdpp Require Import gmap strings list fin_maps.

Abbreviation str := (list ascii).

(** A Python string literal. *)
Definition lit (s : string) : str := list_ascii_of_string s.
Arguments lit s%_string.

(** ** Python's [str] methods *)

Module Py.

Definition code (c : ascii) : N := N_of_ascii c.

(** [str.isspace] on one character: TAB..CR, FS..US, space, NEL, NBSP. *)
Definition isspace (c : ascii) : bool :=
  let n := code c in
  ((9 <=? n) && (n <=? 13) || (28 <=? n) && (n <=? 32)
   || (n =? 133) || (n =? 160))%N.

Definition is_ascii_upper (c : ascii) : bool :=
  let n := code c in ((65 <=? n) && (n <=? 90))%N.
Definition is_ascii_lower (c : ascii) : bool :=
  let n := code c in ((97 <=? n) && (n <=? 122))%N.
Definition is_ascii_digit (c : ascii) : bool :=
  let n := code c in ((48 <=? n) && (n <=? 57))%N.
Definition is_ascii_alpha (c : ascii) : bool :=
  is_ascii_upper c || is_ascii_lower c.
Definition is_ascii_alnum (c : ascii) : bool :=
  is_ascii_alpha c || is_ascii_digit c.

(** [str.lower] on one character: [A-Z], and the Latin-1 capitals
    U+00C0..U+00DE without the multiplication sign U+00D7. *)
Definition lower_char (c : ascii) : ascii :=
  let n := code c in
  if (is_ascii_upper c
      || (192 <=? n)%N && (n <=? 222)%N && negb (n =? 215)%N)
  then ascii_of_N (n + 32) else c.

Definition lower (s : str) : str := map lower_char s.

Fixpoint lstrip_by (p : ascii -> bool) (s : str) : str :=
  match s with
  | c :: s' => if p c then lstrip_by p s' else s
  | [] => []
  end.

Definition rstrip_by (p : ascii -> bool) (s : str) : str :=
  reverse (lstrip_by p (reverse s)).

(** [s.strip()] *)
Definition strip (s : str) : str := rstrip_by isspace (lstrip_by isspace s).

(** [s.startswith(p)] *)
Fixpoint startswith (s p : str) : bool :=
  match p, s with
  | [], _ => true
  | a :: p', b :: s' => if decide (a = b) then startswith s' p' else false
  | _ :: _, [] => false
  end.

(** [x in s] for strings: [x] occurs in [s] as a contiguous substring. *)
Fixpoint contains (x s : str) : bool :=
  startswith s x ||
  match s with
  | [] => false
  | _ :: s' => contains x s'
  end.

(** [s.split(sep)] for a one-character separator: every occurrence cuts,
    empty pieces are kept. *)
Fixpoint split_char (sep : ascii) (s : str) : list str :=
  match s with
  | [] => [[]]
  | c :: s' =>
      if decide (c = sep) then [] :: split_char sep s'
      else match split_char sep s' with
           | w :: ws => (c :: w) :: ws
           | [] => [[c]]
           end
  end.

(** [s.split()]: cut at runs of whitespace, no empty pieces.  [cur] is the
    word being read, in reverse. *)
Fixpoint split_ws_go (cur : str) (s : str) : list str :=
  match s with
  | [] => match cur with [] => [] | _ => [reverse cur] end
  | c :: s' =>
      if isspace c
      then match cur with
           | [] => split_ws_go [] s'
           | _ => reverse cur :: split_ws_go [] s'
           end
      else split_ws_go (c :: cur) s'
  end.

Definition split_ws (s : str) : list str := split_ws_go [] s.

(** [sep.join(parts)] *)
Fixpoint join (sep : str) (parts : list str) : str :=
  match parts with
  | [] => []
  | [p] => p
  | p :: ps => p ++ sep ++ join sep ps
  end.

(** [l[-n:]] for [n > 0]. *)
Definition last_n {A} (n : nat) (l : list A) : list A :=
  drop (length l - n) l.

(** [any(f(x) for x in l)] *)
Definition any {A} (f : A -> bool) (l : list A) : bool := existsb f l.

(** [x in l] for a list of strings. *)
Definition elem (x : str) (l : list str) : bool :=
  existsb (fun y => bool_decide (x = y)) l.

Definition nl : ascii := ascii_of_N 10.
Definition dquote : ascii := ascii_of_N 34.

End Py.

(** ** Exceptions

    A Python call either returns a value or raises.  [Exception cls] stands
    for an instance of [Exception] or of one of its subclasses; the other
    constructors are the built-in classes that derive from [BaseException]
    only, which an [except Exception] clause does not catch. *)

Inductive exn : Type :=
| Exception (cls : string)
| KeyboardInterrupt
| SystemExit
| GeneratorExit.

Definition isinstance_Exception (e : exn) : bool :=
  match e with Exception _ => true | _ => false end.

Inductive result (A : Type) : Type :=
| Return (a : A)
| Raise (e : exn).
Arguments Return {A} a.
Arguments Raise {A} e.

(** ** [urllib.parse.urlparse]

    The callers below read the [scheme] and [netloc] attributes of the
    parse result only. *)

Record ParseResult := {
  scheme : str;
  netloc : str;
  rest : str  (* path, parameters, query and fragment, not split further *)
}.

(** The scheme / network-location split of CPython 3.12's [urlsplit], which
    [urlparse] calls first.  The host syntax checks behind
    [_check_bracketed_host] and [_checknetloc] are left out: a netloc with
    both brackets is accepted as it is. *)
Module Urllib.

Definition c0_control_or_space (c : ascii) : bool := (Py.code c <=? 32)%N.

Definition unsafe_byte (c : ascii) : bool :=
  ((Py.code c =? 9) || (Py.code c =? 10) || (Py.code c =? 13))%N.

Definition scheme_char (c : ascii) : bool :=
  Py.is_ascii_alnum c || bool_decide (c = "+"%char)
  || bool_decide (c = "-"%char) || bool_decide (c = "."%char).

Definition netloc_delim (c : ascii) : bool :=
  bool_decide (c = "/"%char) || bool_decide (c = "?"%char)
  || bool_decide (c = "#"%char).

(** [url.find(':')], returning the text before and after the colon. *)
Fixpoint cut_colon (url : str) : option (str * str) :=
  match url with
  | [] => None
  | c :: url' =>
      if decide (c = ":"%char) then Some ([], url')
      else match cut_colon url' with
           | Some (pre, post) => Some (c :: pre, post)
           | None => None
           end
  end.

Fixpoint take_netloc (s : str) : str * str :=
  match s with
  | [] => ([], [])
  | c :: s' =>
      if netloc_delim c then ([], s)
      else let '(n, r) := take_netloc s' in (c :: n, r)
  end.

Definition has (c : ascii) (s : str) : bool :=
  existsb (fun d => bool_decide (c = d)) s.

Definition urlparse (url : str) : result ParseResult :=
  let url := Py.lstrip_by c0_control_or_space url in
  let url := List.filter (fun c => negb (unsafe_byte c)) url in
  let '(sch, url) :=
    match cut_colon url with
    | Some (c :: pre, post) =>
        if Py.is_ascii_alpha c && forallb scheme_char (c :: pre)
        then (Py.lower (c :: pre), post)
        else ([], url)
    | _ => ([], url)
    end in
  if Py.startswith url (lit "//") then
    let '(loc, r) := take_netloc (drop 2 url) in
    if (has "[" loc && negb (has "]" loc)) || (has "]" loc && negb (has "[" loc))
    then Raise (Exception "ValueError")
    else Return {| scheme := sch; netloc := loc; rest := r |}
  else Return {| scheme := sch; netloc := []; rest := url |}.

End Urllib.

(** ** [utils.py], [crawler.py] and the collection name of [vector_store.py] *)

Section UrlChecks.

(** [urllib.parse.urlparse], as imported by the three modules. *)
Variable urlparse : str -> result ParseResult.

(** [utils.validate_url] *)
Definition validate_url (url : str) : bool :=
  match urlparse url with
  | Return parsed =>
      match netloc parsed with
      | [] => false
      | _ => Py.elem (scheme parsed) [lit "http"; lit "https"]
      end
  | Raise _ => false
  end.

(** [WebsiteCrawler._is_valid_url] *)
Definition _is_valid_url (url : str) : bool :=
  match urlparse url with
  | Return parsed =>
      match netloc parsed, scheme parsed with
      | [], _ => false
      | _, [] => false
      | _, _ => true
      end
  | Raise _ => false
  end.

(** [re.sub(r'[^a-zA-Z0-9.-]', '-', domain)] *)
Definition sub_invalid_chars (domain : str) : str :=
  map (fun c => if Py.is_ascii_alnum c || bool_decide (c = "."%char)
                   || bool_decide (c = "-"%char)
                then c else "-"%char) domain.

Definition not_alnum (c : ascii) : bool := negb (Py.is_ascii_alnum c).

(** The computation of [_generate_collection_name] on the network location. *)
Definition sanitize_domain (domain : str) : str :=
  let domain := if Py.startswith domain (lit "www.") then drop 4 domain
                else domain in
  let domain := sub_invalid_chars domain in
  (* re.sub(r'^[^a-zA-Z0-9]+', '', domain) *)
  let domain := Py.lstrip_by not_alnum domain in
  (* re.sub(r'[^a-zA-Z0-9]+$', '', domain) *)
  let domain := Py.rstrip_by not_alnum domain in
  let domain :=
    if decide (length domain < 3)
    then lit "site-" ++ (match domain with [] => lit "default" | _ => domain end)
    else domain in
  take 50 domain.

(** [VectorStoreManager._generate_collection_name]; [urlparse] is called
    outside any [try], so its exception reaches the caller. *)
Definition _generate_collection_name (source_url : str) : result str :=
  match urlparse source_url with
  | Return parsed => Return (sanitize_domain (netloc parsed))
  | Raise e => Raise e
  end.

End UrlChecks.

(** The first three steps, in the words of the specification: strip a
    leading [www.], replace every character outside [[A-Za-z0-9.-]] by [-],
    trim the leading and trailing non-alphanumeric characters. *)
Definition trimmed (domain : str) : str :=
  Py.rstrip_by not_alnum
    (Py.lstrip_by not_alnum
       (sub_invalid_chars
          (if Py.startswith domain (lit "www.") then drop 4 domain else domain))).

(** The derivation as the specification words it: after the three steps
    above, prepend the prefix [site-] to a result shorter than 3 characters,
    and truncate to 50 characters. *)
Definition collection_name_spec (domain : str) : str :=
  let d := trimmed domain in
  take 50 (if decide (length d < 3) then lit "site-" ++ d else d).

(** The same with the empty result turned into [site-default]. *)
Definition collection_name_spec_default (domain : str) : str :=
  take 50 (match trimmed domain with
           | [] => lit "site-default"
           | d => if decide (length d < 3) then lit "site-" ++ d else d
           end).

(** [^[A-Za-z0-9][A-Za-z0-9.-]*$] against the whole string. *)
Definition name_char (c : ascii) : bool :=
  Py.is_ascii_alnum c || bool_decide (c = "."%char) || bool_decide (c = "-"%char).

Definition matches_collection_name (s : str) : bool :=
  match s with
  | c :: s' => Py.is_ascii_alnum c && forallb name_char s'
  | [] => false
  end.

(** ** [text_processor.py] *)

Record Metadata := {
  source_url : str;
  page_title : str;
  chunk_index : nat;
  total_chunks : nat
}.

(** [langchain_core.documents.Document] *)
Record Document := {
  page_content : str;
  metadata : Metadata
}.

Record TextProcessor := {
  chunk_size : Z;
  chunk_overlap : Z
}.

(** [TextProcessor.__init__] with its default arguments. *)
Definition TextProcessor_default : TextProcessor :=
  {| chunk_size := 1000; chunk_overlap := 200 |}.

(** [re.sub(r'\s+', ' ', s)]: every maximal run of whitespace becomes one
    space.  [in_run] tells that the previous character was whitespace. *)
Fixpoint sub_ws_runs_go (in_run : bool) (s : str) : str :=
  match s with
  | [] => []
  | c :: s' =>
      if Py.isspace c
      then if in_run then sub_ws_runs_go true s'
           else " "%char :: sub_ws_runs_go true s'
      else c :: sub_ws_runs_go false s'
  end.

Definition sub_ws_runs (s : str) : str := sub_ws_runs_go false s.

(** The length of the longest prefix of [s] matching [\s*\n], if there is
    one: the greedy [\s*] gives back characters until a newline follows. *)
Fixpoint ws_then_nl (s : str) : option nat :=
  match s with
  | [] => None
  | c :: s' =>
      if Py.isspace c
      then match ws_then_nl s' with
           | Some n => Some (S n)
           | None => if decide (c = Py.nl) then Some 1 else None
           end
      else None
  end.

(** [re.sub(r'\n\s*\n', '\n\n', s)], scanning left to right; [skip] counts
    the characters of the current match still to be passed over. *)
Fixpoint sub_blank_lines_go (skip : nat) (s : str) : str :=
  match s with
  | [] => []
  | c :: s' =>
      match skip with
      | S k => sub_blank_lines_go k s'
      | O =>
          if decide (c = Py.nl)
          then match ws_then_nl s' with
               | Some n => Py.nl :: Py.nl :: sub_blank_lines_go n s'
               | None => c :: sub_blank_lines_go 0 s'
               end
          else c :: sub_blank_lines_go 0 s'
      end
  end.

Definition sub_blank_lines (s : str) : str := sub_blank_lines_go 0 s.

Definition is_terminal (c : ascii) : bool :=
  bool_decide (c = "."%char) || bool_decide (c = "!"%char)
  || bool_decide (c = "?"%char).

(** [re.search(r'[.!?]$', line)] finds a match: [$] is the end of the
    string, or the position before a newline that ends the string. *)
Definition search_terminal (line : str) : bool :=
  match reverse line with
  | c :: r =>
      is_terminal c
      || (bool_decide (c = Py.nl)
          && match r with d :: _ => is_terminal d | [] => false end)
  | [] => false
  end.

(** The test of the line loop of [_clean_text], on a stripped line. *)
Definition keep_line (line : str) : bool :=
  bool_decide (10 <= length line) || search_terminal line.

(** [TextProcessor._clean_text] *)
Definition _clean_text (text : str) : str :=
  match text with
  | [] => []
  | _ =>
      let text := sub_ws_runs (Py.strip text) in
      let text := sub_blank_lines text in
      let lines := Py.split_char Py.nl text in
      let filtered_lines := List.filter keep_line (map Py.strip lines) in
      let text := Py.join [Py.nl] filtered_lines in
      Py.strip text
  end.

Definition separators : list str :=
  [[Py.nl; Py.nl]; [Py.nl]; lit ". "; lit " "; lit ""].

Section Chunker.

(** [RecursiveCharacterTextSplitter(chunk_size, chunk_overlap,
    length_function=len, separators).split_text]; constructing the splitter
    raises for some sizes (an overlap above the chunk size). *)
Variable split_text : Z -> Z -> list str -> str -> result (list str).

(** The [for i, chunk in enumerate(chunks)] loop. *)
Definition make_documents (content_data : gmap str str) (source_url : str)
    (chunks : list str) : list Document :=
  imap (fun i chunk =>
          {| page_content := Py.strip chunk;
             metadata :=
               {| source_url := source_url;
                  page_title :=
                    default (lit "Untitled Page") (content_data !! lit "title");
                  chunk_index := i;
                  total_chunks := length chunks |} |})
       chunks.

(** [TextProcessor.process_and_chunk]; [content_data] is [None] or a
    dictionary. *)
Definition process_and_chunk (self : TextProcessor)
    (content_data : option (gmap str str)) (source_url : str)
    : result (list Document) :=
  match content_data with
  | None => Return []
  | Some content_data =>
      match content_data !! lit "content" with
      | None => Return []
      | Some content =>
          let cleaned_text := _clean_text content in
          match Py.strip cleaned_text with
          | [] => Return []
          | _ =>
              match split_text (chunk_size self) (chunk_overlap self)
                               separators cleaned_text with
              | Raise e => Raise e
              | Return chunks =>
                  Return (make_documents content_data source_url chunks)
              end
          end
      end
  end.

End Chunker.

(** A stand-in for the library splitter, to run the chunker on concrete
    pages: it rejects an overlap above the chunk size and cuts the text at
    every full stop. *)
Definition sentence_splitter (size overlap : Z) (seps : list str) (text : str)
    : result (list str) :=
  if decide (size < overlap)%Z then Raise (Exception "ValueError")
  else Return (Py.split_char "." text).

Definition example_page : gmap str str :=
  {[ lit "title" := lit "About";
     lit "content" := lit "Rocq is a proof assistant. It checks proofs. It is free software" ]}.

(** ** [vector_store.py]: [SimpleEmbeddingFallback]

    The numpy operations the class uses, on 64-bit floats. *)

Record FloatOps := {
  F : Type;
  fzero : F;                      (* an entry of np.zeros *)
  fone : F;                       (* 1.0 *)
  true_div : nat -> nat -> F;     (* i / n on two ints *)
  fadd : F -> F -> F;
  fsub : F -> F -> F;
  fmul : F -> F -> F;
  fdiv : F -> F -> F;
  gt_zero : F -> bool;            (* x > 0 *)
  linalg_norm : list F -> F       (* np.linalg.norm *)
}.

(** IEEE 754 binary64, the norm summed from left to right. *)
Definition float_of_nat (n : nat) : float :=
  PrimFloat.of_uint63 (Uint63.of_Z (Z.of_nat n)).

Definition float64 : FloatOps := {|
  F := float;
  fzero := 0%float;
  fone := 1%float;
  true_div := fun i n => (float_of_nat i / float_of_nat n)%float;
  fadd := PrimFloat.add;
  fsub := PrimFloat.sub;
  fmul := PrimFloat.mul;
  fdiv := PrimFloat.div;
  gt_zero := fun x => PrimFloat.ltb 0%float x;
  linalg_norm := fun v =>
    PrimFloat.sqrt (fold_left (fun a x => (a + x * x)%float) v 0%float)
|}.

(** The state of a [SimpleEmbeddingFallback] object. *)
Record SimpleEmbeddingFallback := {
  vocab : gmap str nat;
  vocab_size : nat
}.

(** [SimpleEmbeddingFallback.__init__] *)
Definition SimpleEmbeddingFallback_init : SimpleEmbeddingFallback :=
  {| vocab := ∅; vocab_size := 0 |}.

Section Embedding.

Variable ops : FloatOps.

(** The body of [for i, word in enumerate(words)], from index [i] on;
    [n] is [len(words)]. *)
Fixpoint encode_words (n i : nat) (words : list str)
    (self : SimpleEmbeddingFallback) (embedding : list (F ops))
    : SimpleEmbeddingFallback * list (F ops) :=
  match words with
  | [] => (self, embedding)
  | word :: words' =>
      let '(self, word_idx) :=
        match vocab self !! word with
        | Some idx => (self, idx)
        | None =>
            ({| vocab := <[word := vocab_size self]> (vocab self);
                vocab_size := vocab_size self + 1 |},
             vocab_size self)
        end in
      let pos := true_div ops i (Nat.max n 1) in
      let embedding :=
        alter (fun x => fadd ops x (fmul ops (fone ops) (fsub ops (fone ops) pos)))
              (word_idx mod 384) embedding in
      encode_words n (S i) words' self embedding
  end.

(** The normalisation step. *)
Definition l2_normalize (embedding : list (F ops)) : list (F ops) :=
  let norm := linalg_norm ops embedding in
  if gt_zero ops norm then map (fun x => fdiv ops x norm) embedding
  else embedding.

(** One iteration of [for text in texts]. *)
Definition encode_text (text : str) (self : SimpleEmbeddingFallback)
    : SimpleEmbeddingFallback * list (F ops) :=
  let words := Py.split_ws (Py.lower text) in
  let '(self, embedding) :=
    encode_words (length words) 0 words self (replicate 384 (fzero ops)) in
  (self, l2_normalize embedding).

(** [SimpleEmbeddingFallback._encode_texts] *)
Fixpoint _encode_texts (texts : list str) (self : SimpleEmbeddingFallback)
    : SimpleEmbeddingFallback * list (list (F ops)) :=
  match texts with
  | [] => (self, [])
  | text :: texts' =>
      let '(self, e) := encode_text text self in
      let '(self, es) := _encode_texts texts' self in
      (self, e :: es)
  end.

(** [SimpleEmbeddingFallback.embed_documents] *)
Definition embed_documents (texts : list str) (self : SimpleEmbeddingFallback) :=
  _encode_texts texts self.

(** [SimpleEmbeddingFallback.embed_query]: element 0 of the one-element
    list that [_encode_texts] returns. *)
Definition embed_query (text : str) (self : SimpleEmbeddingFallback)
    : SimpleEmbeddingFallback * list (F ops) :=
  let '(self, es) := _encode_texts [text] self in
  (self, match es with e :: _ => e | [] => [] end).

(** The embedder after embedding each text of [prior] with [embed_query],
    in order. *)
Definition after_queries (prior : list str) (self : SimpleEmbeddingFallback)
    : SimpleEmbeddingFallback :=
  fold_left (fun self text => fst (embed_query text self)) prior self.

End Embedding.

(** ** [qa_engine.py] *)

Definition refusal : str :=
  lit "The answer is not available on the provided website.".

(** [QAEngine._simple_answer] *)
Definition _simple_answer (question context : str) : str :=
  let question_lower := Py.lower question in
  let definitional : option str :=
    if Py.any (fun word => Py.contains word question_lower)
              [lit "what is"; lit "what are"; lit "define"; lit "explain"]
    then
      let sentences := Py.split_char "." context in
      let question_words :=
        [lit "what"; lit "is"; lit "are"; lit "the"; lit "a"; lit "an";
         lit "how"; lit "why"; lit "when"; lit "where"; lit "who"] in
      let key_terms :=
        List.filter (fun word => negb (Py.elem word question_words)
                                 && bool_decide (2 < length word))
                    (Py.split_ws question_lower) in
      let relevant_sentences :=
        map Py.strip
            (List.filter
               (fun sentence =>
                  Py.any (fun term => Py.contains term (Py.lower sentence))
                         (take 3 key_terms))
               sentences) in
      match relevant_sentences with
      | [] => None
      | _ => Some (Py.join (lit ". ") (take 2 relevant_sentences) ++ lit ".")
      end
    else None in
  match definitional with
  | Some answer => answer
  | None =>
      let words := Py.split_ws question_lower in
      let content_words :=
        List.filter (fun word => bool_decide (3 < length word)) words in
      let general : option str :=
        match content_words with
        | [] => None
        | _ =>
            let sentences := Py.split_char "." context in
            let matching_sentences :=
              map Py.strip
                  (List.filter
                     (fun sentence =>
                        Py.any (fun word => Py.contains word (Py.lower sentence))
                               content_words)
                     sentences) in
            match matching_sentences with
            | [] => None
            | _ => Some (Py.join (lit ". ") (take 3 matching_sentences) ++ lit ".")
            end
        end in
      match general with
      | Some answer => answer
      | None => refusal
      end
  end.

(** An entry of the [messages] list sent to the chat-completion API. *)
Record Message := {
  role : str;
  content : str
}.

(** The arguments of the [requests.post] call. *)
Record ChatRequest := {
  url : str;
  authorization : str;
  content_type : str;
  model : str;
  messages : list Message;
  temperature : float;
  max_tokens : nat
}.

(** What [ask_question] reads of the response: [status_code], and
    [json()["choices"][0]["message"]["content"]], which raises when the
    body is not of that shape. *)
Record Response := {
  status_code : nat;
  json_content : result str
}.

(** The calls that leave the process, in the order they are made. *)
Inductive event : Type :=
| SimilaritySearch (query : str) (k : nat)
| ChatCompletion (request : ChatRequest).

(** A computation returns or raises, and records the calls it made. *)
Definition M (A : Type) : Type := list event * result A.

Definition ret {A} (a : A) : M A := ([], Return a).
Definition raise {A} (e : exn) : M A := ([], Raise e).
Definition call {A} (ev : event) (r : result A) : M A := ([ev], r).

Definition bind {A B} (m : M A) (f : A -> M B) : M B :=
  match m with
  | (t, Return a) => let '(t', r) := f a in (t ++ t', r)
  | (t, Raise e) => (t, Raise e)
  end.

(** [try: m except ...: handler]; [catches] tells which exceptions the
    clause handles. *)
Definition try_except {A} (m : M A) (catches : exn -> bool) (handler : M A) : M A :=
  match m with
  | (t, Return a) => (t, Return a)
  | (t, Raise e) =>
      if catches e then let '(t', r) := handler in (t ++ t', r)
      else (t, Raise e)
  end.

Definition except_all (e : exn) : bool := true.

Notation "'do' x <- m ; k" := (bind m (fun x => k))
  (at level 10, x name, m at level 100, k at level 200).

(** The object behind [self.vector_store]. *)
Record VectorStore := {
  similarity_search : str -> nat -> result (list Document)
}.

Record QAEngine := {
  vector_store : VectorStore;
  groq_api_key : str;
  use_groq : bool
}.

(** [QAEngine.__init__]; [getenv_key] is [os.getenv('GROQ_API_KEY', '')]. *)
Definition QAEngine_init (vector_store : VectorStore) (getenv_key : str) : QAEngine :=
  {| vector_store := vector_store;
     groq_api_key := getenv_key;
     use_groq := match getenv_key with [] => false | _ => true end |}.

Definition system_message : str :=
  lit "You are a helpful assistant that answers questions based ONLY on the provided website content."
  ++ [Py.nl]
  ++ lit "If the answer to a question is not available in the provided context, respond EXACTLY with:"
  ++ [Py.nl]
  ++ [Py.dquote] ++ refusal ++ [Py.dquote]
  ++ [Py.nl; Py.nl]
  ++ lit "Do not use any external knowledge or make assumptions. Base your answer strictly on the information provided in the context.".

(** Lines 44-62: the messages of the request. *)
Definition history_messages (chat_history : option (list (gmap str str)))
    : list Message :=
  match chat_history with
  | None | Some [] => []
  | Some chat_history =>
      omap (fun msg : gmap str str =>
              let role := default (lit "user") (msg !! lit "role") in
              let content := default (lit "") (msg !! lit "content") in
              if decide (role = lit "user")
              then Some {| role := lit "user"; content := content |}
              else if decide (role = lit "assistant")
              then Some {| role := lit "assistant"; content := content |}
              else None)
           (Py.last_n 6 chat_history)
  end.

Definition build_messages (question context : str)
    (chat_history : option (list (gmap str str))) : list Message :=
  [{| role := lit "system"; content := system_message |}]
  ++ history_messages chat_history
  ++ [{| role := lit "user";
         content := lit "Context from the website:" ++ [Py.nl] ++ context
                    ++ [Py.nl; Py.nl] ++ lit "Question: " ++ question |}].

(** Line 41: the context, the texts of the documents joined by blank lines. *)
Definition context_of (docs : list Document) : str :=
  Py.join [Py.nl; Py.nl] (map page_content docs).

(** Lines 91-99: the check on the answer, whichever branch produced it. *)
Definition needs_refusal (answer : str) : bool :=
  match answer with [] => true | _ => false end
  || Py.startswith (Py.lower answer) (lit "i don't know")
  || Py.startswith (Py.lower answer) (lit "i'm sorry").

Definition post_check (answer : str) : str :=
  if needs_refusal answer then refusal
  else if Py.contains (lit "the answer is not available on the provided website")
                      (Py.lower answer)
  then refusal
  else answer.

Section AskQuestion.

(** [requests.post] *)
Variable requests_post : ChatRequest -> result Response.

Definition groq_request (self : QAEngine) (msgs : list Message) : ChatRequest :=
  {| url := lit "https://api.groq.com/openai/v1/chat/completions";
     authorization := lit "Bearer " ++ groq_api_key self;
     content_type := lit "application/json";
     model := lit "llama2-70b-4096";
     messages := msgs;
     temperature := 0x1.999999999999ap-4%float;  (* 0.1 *)
     max_tokens := 500 |}.

(** Lines 64-89: the candidate answer, from the model or from the keyword
    fallback. *)
Definition candidate_answer (self : QAEngine) (question context : str)
    (msgs : list Message) : M str :=
  if use_groq self then
    try_except
      (do groq_response <- call (ChatCompletion (groq_request self msgs))
                                (requests_post (groq_request self msgs));
       if decide (status_code groq_response = 200)
       then (do c <- ([], json_content groq_response); ret (Py.strip c))
       else raise (Exception "Exception"))
      except_all
      (ret (_simple_answer question context))
  else ret (_simple_answer question context).

(** [QAEngine.ask_question] *)
Definition ask_question (self : QAEngine) (question : str)
    (chat_history : option (list (gmap str str))) : M str :=
  try_except
    (do docs <- call (SimilaritySearch question 5)
                     (similarity_search (vector_store self) question 5);
     match docs with
     | [] => ret refusal
     | _ =>
         let context := context_of docs in
         let msgs := build_messages question context chat_history in
         do answer <- candidate_answer self question context msgs;
         ret (post_check answer)
     end)
    isinstance_Exception
    (ret refusal).

End AskQuestion.

(** The API call failed: it raised, or the status is not 200, or the body
    has no [choices[0].message.content] string. *)
Definition api_failed (r : result Response) : Prop :=
  match r with
  | Raise _ => True
  | Return resp => status_code resp <> 200 \/ exists e, json_content resp = Raise e
  end.

(** ** Concrete stores and HTTP outcomes, to run [ask_question] *)

Definition doc_of (text : str) : Document :=
  {| page_content := text;
     metadata := {| source_url := lit "https://rocq-prover.org/about";
                    page_title := lit "About";
                    chunk_index := 0; total_chunks := 1 |} |}.

(** A store that finds nothing. *)
Definition empty_store : VectorStore :=
  {| similarity_search := fun _ _ => Return [] |}.

(** A store that returns the given texts, at most [k] of them. *)
Definition store_of (texts : list str) : VectorStore :=
  {| similarity_search := fun _ k => Return (take k (map doc_of texts)) |}.

(** A store whose search raises. *)
Definition failing_store (e : exn) : VectorStore :=
  {| similarity_search := fun _ _ => Raise e |}.

(** The API is unreachable. *)
Definition post_unreachable (request : ChatRequest) : result Response :=
  Raise (Exception "ConnectionError").

(** The API answers with status 200 and the given text. *)
Definition post_ok (answer : str) (request : ChatRequest) : result Response :=
  Return {| status_code := 200; json_content := Return answer |}.

(** ** [utils.py]: the text helpers *)

(** [l[:k]] with Python's reading of a negative bound: [k] counts from the
    end, and the slice is empty when that falls before the start. *)
Definition slice_to {A} (k : Z) (l : list A) : list A :=
  if decide (0 <= k)%Z then take (Z.to_nat k) l
  else take (length l - Z.to_nat (- k)) l.

(** [utils.truncate_text]; the default of [max_length] is 200. *)
Definition truncate_text (text : str) (max_length : Z) : str :=
  if decide (Z.of_nat (length text) <= max_length)%Z then text
  else slice_to (max_length - 3) text ++ lit "...".

(** [utils.count_tokens] *)
Definition count_tokens (text : str) : nat := length text / 4.

(** The characters that [sanitize_filename] replaces: the angle brackets,
    colon, double quote, slash, backslash, bar, question mark and star. *)
Definition invalid_filename_char (c : ascii) : bool :=
  bool_decide (c = "<"%char) || bool_decide (c = ">"%char)
  || bool_decide (c = ":"%char) || bool_decide (c = Py.dquote)
  || bool_decide (c = "/"%char) || bool_decide (c = "\"%char)
  || bool_decide (c = "|"%char) || bool_decide (c = "?"%char)
  || bool_decide (c = "*"%char).

Definition space_or_dot (c : ascii) : bool :=
  bool_decide (c = " "%char) || bool_decide (c = "."%char).

(** [utils.sanitize_filename] *)
Definition sanitize_filename (filename : str) : str :=
  let sanitized :=
    map (fun c => if invalid_filename_char c then "_"%char else c) filename in
  (* sanitized.strip(' .') *)
  let sanitized := Py.rstrip_by space_or_dot (Py.lstrip_by space_or_dot sanitized) in
  match sanitized with
  | [] => lit "unnamed"
  | _ => take 100 sanitized
  end.

(** [utils.clean_html_text]; [unescape] is [html.unescape]. *)
Definition clean_html_text (unescape : str -> str) (text : str) : str :=
  let text := unescape text in
  sub_ws_runs (Py.strip text).

(** [utils.extract_domain] *)
Definition extract_domain (urlparse : str -> result ParseResult) (url : str)
    : option str :=
  match urlparse url with
  | Return parsed => Some (netloc parsed)
  | Raise _ => None
  end.

(** A value of a metadata dictionary: a string or an integer. *)
Inductive pyval : Type :=
| PStr (s : str)
| PInt (n : Z).

(** [str(n)] for an integer. *)
Definition decimal (n : Z) : str :=
  list_ascii_of_string (NilZero.string_of_int (Z.to_int n)).

(** The text an f-string puts for a value. *)
Definition format_value (v : pyval) : str :=
  match v with
  | PStr s => s
  | PInt n => decimal n
  end.

(** [utils.format_metadata]; adding 1 to a string raises [TypeError]. *)
Definition format_metadata (metadata : gmap str pyval) : result str :=
  let formatted : list str := [] in
  let formatted :=
    match metadata !! lit "source_url" with
    | Some v => formatted ++ [lit "Source: " ++ format_value v]
    | None => formatted
    end in
  let formatted :=
    match metadata !! lit "page_title" with
    | Some v => formatted ++ [lit "Title: " ++ format_value v]
    | None => formatted
    end in
  match metadata !! lit "chunk_index", metadata !! lit "total_chunks" with
  | Some (PInt i), Some total =>
      Return (Py.join (lit " | ")
                (formatted ++ [lit "Chunk: " ++ decimal (i + 1) ++ lit "/"
                               ++ format_value total]))
  | Some (PStr _), Some _ => Raise (Exception "TypeError")
  | _, _ => Return (Py.join (lit " | ") formatted)
  end.

(** The dictionary that [process_and_chunk] builds for a document. *)
Definition metadata_dict (m : Metadata) : gmap str pyval :=
  {[ lit "source_url" := PStr (source_url m);
     lit "page_title" := PStr (page_title m);
     lit "chunk_index" := PInt (Z.of_nat (chunk_index m));
     lit "total_chunks" := PInt (Z.of_nat (total_chunks m)) ]}.

(** A text whose only whitespace is single spaces between other
    characters. *)
Fixpoint single_spaced (s : str) : bool :=
  match s with
  | [] => true
  | c :: s' =>
      (if Py.isspace c
       then bool_decide (c = " "%char)
            && match s' with d :: _ => negb (Py.isspace d) | [] => false end
       else true)
      && single_spaced s'
  end.

Definition tidy (s : str) : bool :=
  match s with c :: _ => negb (Py.isspace c) | [] => true end
  && single_spaced s.

(** ** [crawler.py] *)

Module Crawler.

(** [\w] on one character: letters, digits and numeric characters of the
    range, and the underscore. *)
Definition is_word (c : ascii) : bool :=
  let n := Py.code c in
  (Py.is_ascii_alnum c || (n =? 95) || (n =? 170) || (n =? 178) || (n =? 179)
   || (n =? 181) || (n =? 185) || (n =? 186)
   || (188 <=? n) && (n <=? 190)
   || (192 <=? n) && (n <=? 214)
   || (216 <=? n) && (n <=? 246)
   || (248 <=? n))%N.

Definition is_kept_punct (c : ascii) : bool :=
  bool_decide (c = "."%char) || bool_decide (c = ","%char)
  || bool_decide (c = "!"%char) || bool_decide (c = "?"%char)
  || bool_decide (c = "-"%char).

(** A character that [re.sub(r'[^\w\s.,!?-]', '', text)] leaves. *)
Definition kept_char (c : ascii) : bool :=
  is_word c || Py.isspace c || is_kept_punct c.

(** [WebsiteCrawler._clean_text] *)
Definition _clean_text (text : str) : str :=
  let text := sub_ws_runs text in
  let lines := Py.split_char Py.nl text in
  let cleaned_lines :=
    List.filter (fun line => bool_decide (20 < length line)) (map Py.strip lines) in
  let text := Py.join (lit " ") cleaned_lines in
  let text := List.filter kept_char text in
  Py.strip text.

(** What the crawler reads of the parsed page: the text of the [title] tag
    if there is one, and, once [_remove_unwanted_elements] has run, the
    [get_text(separator=' ', strip=True)] of the element that
    [_find_main_content] returns and of the [body] tag, if they exist. *)
Record Soup := {
  title_tag : option str;
  main_content : option str;
  body : option str
}.

(** [WebsiteCrawler._extract_title] *)
Definition _extract_title (soup : Soup) : str :=
  match title_tag soup with
  | Some t => Py.strip t
  | None => lit "Untitled Page"
  end.

(** [WebsiteCrawler._extract_content] *)
Definition _extract_content (soup : Soup) : str :=
  let content_parts : list str :=
    match main_content soup with
    | Some [] => []
    | Some text => [text]
    | None => []
    end in
  let content_parts :=
    match content_parts with
    | [] => match body soup with
            | Some text => [text]
            | None => []
            end
    | _ => content_parts
    end in
  _clean_text (Py.join (lit " ") content_parts).

(** Both handlers of [crawl] raise a new [Exception]; what is outside
    [Exception] passes through. *)
Definition reraise {A} (e : exn) : result A :=
  if isinstance_Exception e then Raise (Exception "Exception") else Raise e.

Section Crawl.

Variable urlparse : str -> result ParseResult.
(** [session.get(url, timeout=10)], [raise_for_status()] and [.content] *)
Variable session_get : str -> result str.
(** [BeautifulSoup(content, 'html.parser')] *)
Variable parse : str -> result Soup.

(** [WebsiteCrawler.crawl]: the URLs requested, and the outcome. *)
Definition crawl (url : str) : list str * result (option (gmap str str)) :=
  if negb (_is_valid_url urlparse url) then ([], reraise (Exception "ValueError"))
  else
    match session_get url with
    | Raise e => ([url], reraise e)
    | Return response_content =>
        match parse response_content with
        | Raise e => ([url], reraise e)
        | Return soup =>
            let title := _extract_title soup in
            let content := _extract_content soup in
            match Py.strip content with
            | [] => ([url], Return None)
            | _ =>
                ([url],
                 Return (Some {[ lit "title" := title;
                                 lit "content" := content;
                                 lit "url" := url ]}))
            end
        end
    end.

End Crawl.

End Crawler.

(** ** [vector_store.py]: [create_store] *)

Section CreateStore.

Variable urlparse : str -> result ParseResult.
(** [Chroma.from_documents(documents, embedding, client, collection_name,
    persist_directory)] *)
Variable from_documents : list Document -> str -> result VectorStore.

(** [VectorStoreManager.create_store]: the collection names handed to
    Chroma, and the outcome. *)
Definition create_store (documents : list Document)
    : list str * result VectorStore :=
  match documents with
  | [] => ([], Raise (Exception "ValueError"))
  | d :: _ =>
      match _generate_collection_name urlparse (source_url (metadata d)) with
      | Raise e => ([], Raise e)
      | Return collection_name =>
          ([collection_name], from_documents documents collection_name)
      end
  end.

End CreateStore.

(** The vocabulary of an embedder numbers the words it has seen: every
    index is below [vocab_size], no two words share one, and [vocab_size]
    counts the words. *)
Definition vocab_wf (s : SimpleEmbeddingFallback) : Prop :=
  (forall w i, vocab s !! w = Some i -> i < vocab_size s)
  /\ (forall w1 w2 i, vocab s !! w1 = Some i -> vocab s !! w2 = Some i -> w1 = w2)
  /\ size (vocab s) = vocab_size s.

(** * Properties *)

(** ** Evaluation of the model on small inputs *)

Example split_dot_ex :
  Py.split_char "." (lit "A is B. C is D.") = [lit "A is B"; lit " C is D"; lit ""].
Proof. reflexivity. Qed.

Example split_ws_ex :
  Py.split_ws (lit "  what   is a ") = [lit "what"; lit "is"; lit "a"].
Proof. reflexivity. Qed.

Example urlparse_ex :
  Urllib.urlparse (lit "HTTPS://www.Example.com:80/a?b#c")
  = Return {| scheme := lit "https"; netloc := lit "www.Example.com:80";
              rest := lit "/a?b#c" |}.
Proof. reflexivity. Qed.

Example collection_name_ex :
  _generate_collection_name Urllib.urlparse (lit "https://www.my_site.example.com:8080/x")
  = Return (lit "my-site.example.com-8080").
Proof. reflexivity. Qed.

Example clean_ex :
  _clean_text (lit "  Hello   world, this is text.  ") = lit "Hello world, this is text.".
Proof. reflexivity. Qed.

Example embed_ex :
  map (fun x => PrimFloat.eqb x 1%float)
      (take 2 (snd (embed_query float64 (lit "hello") SimpleEmbeddingFallback_init)))
  = [true; false].
Proof. vm_compute. reflexivity. Qed.

Example simple_answer_ex :
  _simple_answer (lit "what is rocq") (lit "Rocq is a proof assistant. It is free.")
  = lit "Rocq is a proof assistant.".
Proof. reflexivity. Qed.

(** ** Stripping *)

Section Strip.

Variable p : ascii -> bool.

Lemma lstrip_by_head s c : head (Py.lstrip_by p s) = Some c -> p c = false.
Proof.
  induction s as [|a s IH]; simpl; [discriminate|].
  destruct (p a) eqn:Ha; [exact IH|].
  simpl. intros [= <-]. exact Ha.
Qed.

Lemma lstrip_by_suffix s : Py.lstrip_by p s `suffix_of` s.
Proof.
  induction s as [|a s IH]; simpl; [done|].
  destruct (p a); [by apply suffix_cons_r | done].
Qed.

Lemma rstrip_by_prefix s : Py.rstrip_by p s `prefix_of` s.
Proof.
  unfold Py.rstrip_by.
  destruct (lstrip_by_suffix (reverse s)) as [k Hk].
  exists (reverse k).
  apply (f_equal reverse) in Hk.
  by rewrite reverse_involutive, reverse_app in Hk.
Qed.

Lemma rstrip_by_last s c : last (Py.rstrip_by p s) = Some c -> p c = false.
Proof.
  unfold Py.rstrip_by. rewrite last_reverse. apply lstrip_by_head.
Qed.

Lemma rstrip_by_head s c :
  head (Py.rstrip_by p s) = Some c -> head s = Some c.
Proof.
  destruct (rstrip_by_prefix s) as [k Hk].
  destruct (Py.rstrip_by p s) as [|a r]; [discriminate|].
  rewrite Hk. done.
Qed.

End Strip.

Lemma strip_head s c : head (Py.strip s) = Some c -> Py.isspace c = false.
Proof.
  unfold Py.strip. intros H.
  apply rstrip_by_head in H. by apply lstrip_by_head in H.
Qed.

Lemma strip_last s c : last (Py.strip s) = Some c -> Py.isspace c = false.
Proof. unfold Py.strip. apply rstrip_by_last. Qed.

(** ** The chunker's documents *)

Section ChunkerFacts.

Variable split_text : Z -> Z -> list str -> str -> result (list str).

Lemma make_documents_length cd src chunks :
  length (make_documents cd src chunks) = length chunks.
Proof. unfold make_documents. apply length_imap. Qed.

Lemma make_documents_lookup cd src chunks i d :
  make_documents cd src chunks !! i = Some d ->
  exists chunk, chunks !! i = Some chunk
    /\ page_content d = Py.strip chunk
    /\ chunk_index (metadata d) = i
    /\ total_chunks (metadata d) = length chunks
    /\ source_url (metadata d) = src
    /\ page_title (metadata d) = default (lit "Untitled Page") (cd !! lit "title").
Proof.
  unfold make_documents. rewrite list_lookup_imap.
  destruct (chunks !! i) as [chunk|]; simpl; [|discriminate].
  intros [= <-]. exists chunk. simpl. tauto.
Qed.

Lemma make_documents_indices cd src chunks :
  (fun d => chunk_index (metadata d)) <$> make_documents cd src chunks
  = seq 0 (length chunks).
Proof.
  apply list_eq. intros i.
  rewrite list_lookup_fmap.
  destruct (make_documents cd src chunks !! i) as [d|] eqn:Hd; simpl.
  - destruct (make_documents_lookup _ _ _ _ _ Hd) as (chunk & Hc & _ & Hi & _).
    rewrite Hi. symmetry. apply lookup_seq. split; [done|].
    by apply lookup_lt_Some in Hc.
  - symmetry. apply lookup_ge_None in Hd.
    rewrite make_documents_length in Hd.
    apply lookup_ge_None. by rewrite length_seq.
Qed.

(** What [process_and_chunk] returns is either empty (no page, no content,
    blank cleaned text) or the documents made from the splitter's chunks. *)
Lemma process_and_chunk_inv self content_data src docs :
  process_and_chunk split_text self content_data src = Return docs ->
  docs = []
  \/ exists cd chunks, content_data = Some cd
       /\ docs = make_documents cd src chunks.
Proof.
  unfold process_and_chunk.
  destruct content_data as [cd|]; [|intros [= <-]; by left].
  destruct (cd !! lit "content") as [content|]; [|intros [= <-]; by left].
  destruct (Py.strip (_clean_text content)); [intros [= <-]; by left|].
  destruct (split_text _ _ _ _) as [chunks|e]; [|discriminate].
  intros [= <-]. right. by exists cd, chunks.
Qed.

(** C5: the documents of one page are numbered [0, 1, ..., n-1] in output
    order, each carries [total_chunks = n], the number of documents, and
    all carry the page's source URL and title. *)
Theorem process_and_chunk_chunk_metadata self content_data src docs :
  process_and_chunk split_text self content_data src = Return docs ->
  (fun d => chunk_index (metadata d)) <$> docs = seq 0 (length docs)
  /\ forall d, d ∈ docs ->
       total_chunks (metadata d) = length docs
       /\ source_url (metadata d) = src
       /\ page_title (metadata d)
          = default (lit "Untitled Page") (content_data ≫= (.!! lit "title")).
Proof.
  intros H. apply process_and_chunk_inv in H as [->|(cd & chunks & -> & ->)].
  - split; [done|]. intros d Hd. by apply elem_of_nil in Hd.
  - rewrite make_documents_length. split; [apply make_documents_indices|].
    intros d [i Hi]%list_elem_of_lookup.
    destruct (make_documents_lookup _ _ _ _ _ Hi) as (_ & _ & _ & _ & Ht & Hs & Hp).
    auto.
Qed.

(** C10: the text of every document that [process_and_chunk] returns
    neither starts nor ends with a whitespace character. *)
Theorem process_and_chunk_page_content_stripped self content_data src docs :
  process_and_chunk split_text self content_data src = Return docs ->
  forall d, d ∈ docs ->
    (forall c, head (page_content d) = Some c -> Py.isspace c = false)
    /\ (forall c, last (page_content d) = Some c -> Py.isspace c = false).
Proof.
  intros H d Hd.
  apply process_and_chunk_inv in H as [->|(cd & chunks & -> & ->)].
  - by apply elem_of_nil in Hd.
  - apply list_elem_of_lookup in Hd as [i Hi].
    destruct (make_documents_lookup _ _ _ _ _ Hi) as (chunk & _ & -> & _).
    split; intros c; [apply strip_head | apply strip_last].
Qed.

End ChunkerFacts.

Lemma process_and_chunk_chunk_metadata_witness :
  exists docs,
    length docs = 3
    /\ (fun d => chunk_index (metadata d)) <$> docs = seq 0 (length docs)
    /\ forall d, d ∈ docs ->
         total_chunks (metadata d) = length docs
         /\ source_url (metadata d) = lit "https://rocq-prover.org/about"
         /\ page_title (metadata d)
            = default (lit "Untitled Page") (Some example_page ≫= (.!! lit "title")).
Proof.
  eexists. split; [|
    apply (process_and_chunk_chunk_metadata sentence_splitter TextProcessor_default
             (Some example_page) (lit "https://rocq-prover.org/about"));
    vm_compute; reflexivity].
  reflexivity.
Defined.

Lemma process_and_chunk_page_content_stripped_witness :
  exists docs,
    process_and_chunk sentence_splitter TextProcessor_default (Some example_page)
                      (lit "https://rocq-prover.org/about") = Return docs
    /\ length docs = 3
    /\ forall d, d ∈ docs ->
         (forall c, head (page_content d) = Some c -> Py.isspace c = false)
         /\ (forall c, last (page_content d) = Some c -> Py.isspace c = false).
Proof.
  eexists. split; [vm_compute; reflexivity|]. split; [reflexivity|].
  apply (process_and_chunk_page_content_stripped sentence_splitter TextProcessor_default
           (Some example_page) (lit "https://rocq-prover.org/about")).
  vm_compute. reflexivity.
Defined.

(** ** URL validation *)

Lemma elem_true_iff x l : Py.elem x l = true <-> x ∈ l.
Proof.
  unfold Py.elem. induction l as [|y l IH]; simpl.
  - split; [discriminate | by intros ?%elem_of_nil].
  - rewrite orb_true_iff, IH, bool_decide_eq_true, elem_of_cons. tauto.
Qed.

(** C6, as the code has it: [validate_url] accepts exactly the strings that
    parse with a network location and the scheme [http] or [https]; the
    crawler's [_is_valid_url] accepts exactly the strings that parse with a
    network location and some scheme. *)
Theorem validate_url_http_only (urlparse : str -> result ParseResult) (url : str) :
  (validate_url urlparse url = true <->
   exists p, urlparse url = Return p /\ netloc p <> []
             /\ (scheme p = lit "http" \/ scheme p = lit "https"))
  /\ (_is_valid_url urlparse url = true <->
      exists p, urlparse url = Return p /\ netloc p <> [] /\ scheme p <> []).
Proof.
  unfold validate_url, _is_valid_url. split.
  - destruct (urlparse url) as [p|e].
    + destruct (netloc p) as [|c n] eqn:Hn.
      * split; [discriminate|]. intros (q & [= <-] & Hq & _). by rewrite Hn in Hq.
      * rewrite elem_true_iff. split.
        -- intros H. exists p. rewrite Hn. split; [done|]. split; [done|].
           apply elem_of_cons in H as [H|H]; [by left|].
           apply elem_of_cons in H as [H|H]; [by right|].
           by apply elem_of_nil in H.
        -- intros (q & [= <-] & _ & [->| ->]); set_solver.
    + split; [discriminate|]. by intros (q & [=] & _).
  - destruct (urlparse url) as [p|e].
    + destruct (netloc p) as [|c n] eqn:Hn.
      * split; [discriminate|]. intros (q & [= <-] & Hq & _). by rewrite Hn in Hq.
      * destruct (scheme p) as [|c' sc] eqn:Hs.
        -- split; [discriminate|]. intros (q & [= <-] & _ & Hq). by rewrite Hs in Hq.
        -- split; [|done]. intros _. exists p. by rewrite Hn, Hs.
    + split; [discriminate|]. by intros (q & [=] & _).
Qed.

Lemma validate_url_http_only_witness :
  validate_url Urllib.urlparse (lit "https://example.com/docs") = true
  /\ _is_valid_url Urllib.urlparse (lit "https://example.com/docs") = true.
Proof.
  split.
  - apply (proj1 (validate_url_http_only Urllib.urlparse (lit "https://example.com/docs"))).
    eexists. split; [reflexivity|]. split; [discriminate|]. by right.
  - apply (proj2 (validate_url_http_only Urllib.urlparse (lit "https://example.com/docs"))).
    eexists. split; [reflexivity|]. split; discriminate.
Defined.

(** C6, as stated, fails: [ftp://example.com/file] has a scheme and a
    network location, and [validate_url] returns false on it. *)
Lemma validate_url_rejects_ftp :
  exists p,
    Urllib.urlparse (lit "ftp://example.com/file") = Return p
    /\ scheme p = lit "ftp" /\ netloc p = lit "example.com"
    /\ validate_url Urllib.urlparse (lit "ftp://example.com/file") = false
    /\ _is_valid_url Urllib.urlparse (lit "ftp://example.com/file") = true.
Proof. eexists. repeat split. Qed.

(** ** Collection names *)

Lemma sub_invalid_chars_name_char d :
  Forall (fun c => name_char c = true) (sub_invalid_chars d).
Proof.
  unfold sub_invalid_chars. apply Forall_fmap, Forall_forall. intros c _. simpl.
  fold (name_char c). by destruct (name_char c) eqn:Hc.
Qed.

Lemma Forall_prefix {A} (P : A -> Prop) (l k : list A) :
  l `prefix_of` k -> Forall P k -> Forall P l.
Proof. intros [t ->] H. by apply Forall_app in H as [H _]. Qed.

Lemma Forall_suffix {A} (P : A -> Prop) (l k : list A) :
  l `suffix_of` k -> Forall P k -> Forall P l.
Proof. intros [t ->] H. by apply Forall_app in H as [_ H]. Qed.

Lemma matches_collection_name_intro s :
  (exists c, head s = Some c /\ Py.is_ascii_alnum c = true) ->
  Forall (fun c => name_char c = true) s ->
  matches_collection_name s = true.
Proof.
  intros (c & Hc & Ha) H. destruct s as [|a s]; [discriminate|].
  injection Hc as ->. simpl. rewrite Ha. simpl.
  apply Forall_cons in H as [_ H].
  apply forallb_forall. intros x Hx.
  rewrite Forall_forall in H. apply H. by apply list_elem_of_In.
Qed.

Lemma trimmed_name_char domain :
  Forall (fun c => name_char c = true) (trimmed domain).
Proof.
  unfold trimmed.
  eapply Forall_prefix; [apply rstrip_by_prefix|].
  eapply Forall_suffix; [apply lstrip_by_suffix|].
  apply sub_invalid_chars_name_char.
Qed.

Lemma trimmed_head domain c :
  head (trimmed domain) = Some c -> Py.is_ascii_alnum c = true.
Proof.
  unfold trimmed. intros H. apply rstrip_by_head, lstrip_by_head in H.
  unfold not_alnum in H. by apply negb_false_iff in H.
Qed.

Lemma sanitize_domain_trimmed domain :
  sanitize_domain domain
  = take 50 (match trimmed domain with
             | [] => lit "site-default"
             | d => if decide (length d < 3) then lit "site-" ++ d else d
             end).
Proof.
  unfold sanitize_domain. fold (trimmed domain).
  destruct (trimmed domain) as [|c d]; [done|].
  by destruct (decide _).
Qed.

Lemma sanitize_domain_matches domain :
  matches_collection_name (sanitize_domain domain) = true.
Proof.
  rewrite sanitize_domain_trimmed.
  pose proof (trimmed_name_char domain) as HF.
  pose proof (trimmed_head domain) as HH.
  destruct (trimmed domain) as [|c d]; [done|]. cbv zeta.
  destruct (decide (length (c :: d) < 3)).
  - apply matches_collection_name_intro;
      [exists "s"%char; split; reflexivity|].
    apply Forall_take. apply Forall_app. split; [|done].
    by repeat constructor.
  - apply matches_collection_name_intro.
    + exists c. split; [done|]. by apply HH.
    + by apply Forall_take.
Qed.

(** C4, as the code has it: the name is a function of the network location
    of the source URL: strip a leading [www.], replace every character
    outside [[A-Za-z0-9.-]] by [-], trim the non-alphanumeric ends, turn an
    empty result into [site-default] and prepend [site-] to a result of one
    or two characters, truncate to 50; it matches
    [^[A-Za-z0-9][A-Za-z0-9.-]*$] and has at most 50 characters. *)
Theorem generate_collection_name_derivation
    (urlparse : str -> result ParseResult) (url : str) (p : ParseResult) :
  urlparse url = Return p ->
  exists name,
    _generate_collection_name urlparse url = Return name
    /\ name = collection_name_spec_default (netloc p)
    /\ matches_collection_name name = true
    /\ length name <= 50.
Proof.
  intros H. exists (sanitize_domain (netloc p)).
  unfold _generate_collection_name. rewrite H. split; [done|].
  split; [apply sanitize_domain_trimmed|].
  split; [apply sanitize_domain_matches|].
  unfold sanitize_domain. rewrite length_take. lia.
Qed.

Lemma generate_collection_name_derivation_witness :
  exists name,
    _generate_collection_name Urllib.urlparse
      (lit "https://www.my_site.example.com:8080/x") = Return name
    /\ name = collection_name_spec_default (lit "www.my_site.example.com:8080")
    /\ matches_collection_name name = true
    /\ length name <= 50.
Proof.
  apply (generate_collection_name_derivation Urllib.urlparse
           (lit "https://www.my_site.example.com:8080/x")
           {| scheme := lit "https"; netloc := lit "www.my_site.example.com:8080";
              rest := lit "/x" |}).
  reflexivity.
Defined.

(** C4, as stated, fails where the trimmed domain is empty: the source URL
    [unknown] (the default of [create_store]) has an empty network location;
    prepending [site-] to the empty result gives [site-], and the code
    returns [site-default].  And not every source URL has a name: on
    [http://[::1/x], with its unmatched bracket, [urlparse] raises
    [ValueError] and so does [_generate_collection_name]. *)
Lemma generate_collection_name_empty_domain :
  (exists p,
     Urllib.urlparse (lit "unknown") = Return p
     /\ collection_name_spec (netloc p) = lit "site-"
     /\ _generate_collection_name Urllib.urlparse (lit "unknown")
        = Return (lit "site-default")
     /\ _generate_collection_name Urllib.urlparse (lit "unknown")
        <> Return (collection_name_spec (netloc p)))
  /\ _generate_collection_name Urllib.urlparse (lit "http://[::1/x")
     = Raise (Exception "ValueError").
Proof.
  split; [|reflexivity].
  eexists. repeat split. vm_compute. discriminate.
Qed.

(** ** The keyword fallback on the scenario of the specification *)

(** C7, as the code has it: on the context [A is B. C is D. E is F.] and
    the question [what is a] the question has a definitional cue, but its
    three words are all stop words, so no sentence is selected there; in the
    general branch the only word longer than 3 characters is [what], which
    occurs in no sentence, and [_simple_answer] returns the refusal string. *)
Theorem simple_answer_what_is_a :
  Py.contains (lit "what is") (Py.lower (lit "what is a")) = true
  /\ _simple_answer (lit "what is a") (lit "A is B. C is D. E is F.") = refusal.
Proof. split; reflexivity. Qed.

(** C7, as stated, fails: the answer is not [A is B.]. *)
Lemma simple_answer_what_is_a_not_sentence :
  _simple_answer (lit "what is a") (lit "A is B. C is D. E is F.") <> lit "A is B.".
Proof. vm_compute. discriminate. Qed.

(** ** The pre-clean of the chunker *)

Lemma sub_ws_runs_go_no_nl b s : Py.nl ∉ sub_ws_runs_go b s.
Proof.
  revert b. induction s as [|c s IH]; intros b; simpl.
  - apply not_elem_of_nil.
  - destruct (Py.isspace c) eqn:Hc.
    + destruct b; [apply IH|].
      apply not_elem_of_cons. split; [discriminate | apply IH].
    + apply not_elem_of_cons. split; [|apply IH].
      intros <-. discriminate Hc.
Qed.

Lemma sub_blank_lines_no_nl s : Py.nl ∉ s -> sub_blank_lines s = s.
Proof.
  unfold sub_blank_lines. induction s as [|c s IH]; simpl; [done|].
  intros [Hc Hs]%not_elem_of_cons.
  destruct (decide (c = Py.nl)); [by subst|].
  by rewrite IH.
Qed.

Lemma split_char_absent sep s : sep ∉ s -> Py.split_char sep s = [s].
Proof.
  induction s as [|c s IH]; simpl; [done|].
  intros [Hc Hs]%not_elem_of_cons.
  destruct (decide (c = sep)); [by subst|].
  by rewrite IH.
Qed.

Lemma strip_elem_of s c : c ∈ Py.strip s -> c ∈ s.
Proof.
  unfold Py.strip. intros H.
  destruct (rstrip_by_prefix Py.isspace (Py.lstrip_by Py.isspace s)) as [k Hk].
  destruct (lstrip_by_suffix Py.isspace s) as [k' Hk'].
  rewrite Hk', Hk. set_solver.
Qed.

(** Once the whitespace runs are collapsed no newline is left, so the line
    loop of [_clean_text] sees the whole text as its only line. *)
Lemma clean_text_one_line text :
  text <> [] ->
  let line := Py.strip (sub_ws_runs (Py.strip text)) in
  _clean_text text = if keep_line line then Py.strip line else [].
Proof.
  intros Hne. destruct text as [|c text]; [done|].
  unfold _clean_text.
  rewrite sub_blank_lines_no_nl by apply sub_ws_runs_go_no_nl.
  rewrite split_char_absent by apply sub_ws_runs_go_no_nl.
  simpl map. simpl List.filter. by destruct (keep_line _).
Qed.

Lemma clean_text_no_newline text : Py.nl ∉ _clean_text text.
Proof.
  destruct text as [|c text]; [apply not_elem_of_nil|].
  rewrite clean_text_one_line by done. cbv zeta.
  destruct (keep_line _); [|apply not_elem_of_nil].
  intros H. apply strip_elem_of, strip_elem_of in H.
  by apply sub_ws_runs_go_no_nl in H.
Qed.

(** C8, on the code: a text of four lines, each under 10 characters and
    without terminal punctuation, is returned whole, its newlines turned
    into spaces; and a short line followed by a long one is kept as well. *)
Theorem clean_text_keeps_short_lines :
  _clean_text (lit "abc" ++ [Py.nl] ++ lit "def" ++ [Py.nl] ++ lit "ghi"
               ++ [Py.nl] ++ lit "jkl")
  = lit "abc def ghi jkl"
  /\ _clean_text (lit "Menu" ++ [Py.nl] ++ lit "This line is long enough.")
     = lit "Menu This line is long enough.".
Proof. split; reflexivity. Qed.

(** ** The answer composer *)

Section AskQuestionFacts.

Variable requests_post : ChatRequest -> result Response.

(** C1: when the similarity search returns no document, [ask_question]
    returns the refusal string and makes no chat-completion call. *)
Theorem ask_question_no_documents (self : QAEngine) (question : str)
    (chat_history : option (list (gmap str str))) :
  similarity_search (vector_store self) question 5 = Return [] ->
  snd (ask_question requests_post self question chat_history) = Return refusal
  /\ forall request,
       ChatCompletion request
       ∉ fst (ask_question requests_post self question chat_history).
Proof.
  intros H. unfold ask_question, call, bind, try_except. rewrite H. simpl.
  split; [done|]. intros request Hin.
  apply elem_of_cons in Hin as [Hin|Hin]; [discriminate|].
  by apply elem_of_nil in Hin.
Qed.

(** Where the candidate answer comes from. *)
Lemma candidate_answer_primary self question context msgs c :
  use_groq self = true ->
  requests_post (groq_request self msgs)
  = Return {| status_code := 200; json_content := Return c |} ->
  candidate_answer requests_post self question context msgs
  = ([ChatCompletion (groq_request self msgs)], Return (Py.strip c)).
Proof.
  intros Hg Hp. unfold candidate_answer, call, bind, try_except, ret.
  rewrite Hg, Hp. reflexivity.
Qed.

Lemma candidate_answer_no_key self question context msgs :
  use_groq self = false ->
  candidate_answer requests_post self question context msgs
  = ([], Return (_simple_answer question context)).
Proof. intros Hg. unfold candidate_answer. by rewrite Hg. Qed.

Lemma candidate_answer_api_failed self question context msgs :
  use_groq self = true ->
  api_failed (requests_post (groq_request self msgs)) ->
  candidate_answer requests_post self question context msgs
  = ([ChatCompletion (groq_request self msgs)],
     Return (_simple_answer question context)).
Proof.
  intros Hg Hf. unfold candidate_answer, call, bind, try_except, ret, raise.
  rewrite Hg. destruct (requests_post _) as [resp|e]; simpl in *; [|done].
  destruct (decide (status_code resp = 200)) as [H200|H200].
  - destruct Hf as [Hf|[e Hf]]; [done|]. by rewrite Hf.
  - done.
Qed.

(** The candidate answer never raises: the bare [except] of the API call
    handles every exception, and the fallback is a total function. *)
Lemma candidate_answer_returns self question context msgs :
  exists t answer,
    candidate_answer requests_post self question context msgs = (t, Return answer).
Proof.
  unfold candidate_answer, call, bind, try_except, ret, raise.
  destruct (use_groq self); [|by eexists _, _].
  destruct (requests_post _) as [resp|e]; simpl; [|by eexists _, _].
  destruct (decide _); [|by eexists _, _].
  destruct (json_content resp); by eexists _, _.
Qed.

Lemma ask_question_with_documents self question chat_history docs t answer :
  similarity_search (vector_store self) question 5 = Return docs ->
  docs <> [] ->
  candidate_answer requests_post self question (context_of docs)
    (build_messages question (context_of docs) chat_history) = (t, Return answer) ->
  ask_question requests_post self question chat_history
  = (SimilaritySearch question 5 :: t, Return (post_check answer)).
Proof.
  intros Hs Hne Hc. unfold ask_question, call. rewrite Hs.
  destruct docs as [|d docs]; [done|].
  unfold bind at 1. cbv iota beta.
  unfold bind. rewrite Hc. simpl. by rewrite app_nil_r.
Qed.

(** C2, as the code has it: [ask_question] never propagates an instance of
    [Exception]; the only exceptions that reach its caller are those outside
    [Exception] raised by the similarity search.  When the search raises an
    instance of [Exception] the refusal string is returned.  When the API
    call fails (it raises an exception of any class, or the status is not
    200, or the body has no content string) the keyword fallback answers,
    and its answer goes through the final check: the result is that
    answer, which need not be the refusal string. *)
Theorem ask_question_exception_handling (self : QAEngine) (question : str)
    (chat_history : option (list (gmap str str))) :
  let search := similarity_search (vector_store self) question 5 in
  let out := snd (ask_question requests_post self question chat_history) in
  (forall e, out = Raise e -> isinstance_Exception e = false /\ search = Raise e)
  /\ (forall e, search = Raise e -> isinstance_Exception e = true ->
        out = Return refusal)
  /\ (forall docs, search = Return docs -> docs <> [] ->
        use_groq self = true ->
        api_failed (requests_post
                      (groq_request self
                         (build_messages question (context_of docs) chat_history))) ->
        out = Return (post_check (_simple_answer question (context_of docs)))).
Proof.
  cbv zeta. split; [|split].
  - intros e.
    destruct (similarity_search (vector_store self) question 5) as [docs|e'] eqn:Hs.
    + destruct docs as [|d docs].
      * unfold ask_question, call, bind, try_except. rewrite Hs. discriminate.
      * destruct (candidate_answer_returns self question (context_of (d :: docs))
                    (build_messages question (context_of (d :: docs)) chat_history))
          as (t & answer & Hc).
        erewrite ask_question_with_documents by (try exact Hs; try exact Hc; done).
        discriminate.
    + unfold ask_question, call, bind, try_except. rewrite Hs.
      destruct (isinstance_Exception e') eqn:He'; simpl; [discriminate|].
      by intros [= <-].
  - intros e Hs He. unfold ask_question, call, bind, try_except.
    by rewrite Hs, He.
  - intros docs Hs Hne Hg Hf.
    erewrite ask_question_with_documents; [done..|].
    by apply candidate_answer_api_failed.
Qed.

(** C3, as the code has it: whichever path produced the candidate answer,
    the model or the keyword fallback, a candidate that is empty, or starts
    with [i don't know] or [i'm sorry] in lower case, or contains the
    refusal phrase in lower case, makes [ask_question] return the refusal
    string. *)
Theorem ask_question_normalizes_candidate (self : QAEngine) (question : str)
    (chat_history : option (list (gmap str str)))
    (docs : list Document) (t : list event) (answer : str) :
  similarity_search (vector_store self) question 5 = Return docs ->
  docs <> [] ->
  candidate_answer requests_post self question (context_of docs)
    (build_messages question (context_of docs) chat_history) = (t, Return answer) ->
  answer = []
  \/ Py.startswith (Py.lower answer) (lit "i don't know") = true
  \/ Py.startswith (Py.lower answer) (lit "i'm sorry") = true
  \/ Py.contains (lit "the answer is not available on the provided website")
                 (Py.lower answer) = true ->
  snd (ask_question requests_post self question chat_history) = Return refusal.
Proof.
  intros Hs Hne Hc Hbad.
  erewrite ask_question_with_documents by done. simpl. f_equal.
  unfold post_check, needs_refusal.
  destruct Hbad as [->|[H|[H|H]]]; [done| | |].
  - rewrite H. by rewrite orb_true_r.
  - rewrite H. by rewrite orb_true_r.
  - rewrite H. by destruct (_ || _).
Qed.

End AskQuestionFacts.

Lemma ask_question_no_documents_witness :
  snd (ask_question (post_ok (lit "Rocq is a proof assistant."))
         (QAEngine_init empty_store (lit "gsk_key")) (lit "what is rocq") None)
  = Return refusal
  /\ forall request,
       ChatCompletion request
       ∉ fst (ask_question (post_ok (lit "Rocq is a proof assistant."))
                (QAEngine_init empty_store (lit "gsk_key")) (lit "what is rocq") None).
Proof.
  apply (ask_question_no_documents (post_ok (lit "Rocq is a proof assistant."))
           (QAEngine_init empty_store (lit "gsk_key")) (lit "what is rocq") None).
  reflexivity.
Defined.

Lemma ask_question_exception_handling_witness :
  let question := lit "what is rocq" in
  let texts := [lit "Rocq is a proof assistant. It is free."] in
  snd (ask_question post_unreachable
         (QAEngine_init (failing_store (Exception "RuntimeError")) (lit "gsk_key"))
         question None) = Return refusal
  /\ snd (ask_question post_unreachable
            (QAEngine_init (store_of texts) (lit "gsk_key")) question None)
     = Return (post_check (_simple_answer question (context_of (map doc_of texts)))).
Proof.
  cbv zeta. split.
  - apply (proj1 (proj2 (ask_question_exception_handling post_unreachable
             (QAEngine_init (failing_store (Exception "RuntimeError")) (lit "gsk_key"))
             (lit "what is rocq") None)) (Exception "RuntimeError"));
      reflexivity.
  - apply (proj2 (proj2 (ask_question_exception_handling post_unreachable
             (QAEngine_init (store_of [lit "Rocq is a proof assistant. It is free."])
                            (lit "gsk_key"))
             (lit "what is rocq") None))
             (map doc_of [lit "Rocq is a proof assistant. It is free."]));
      [reflexivity | discriminate | reflexivity | exact I].
Defined.

(** C2, as stated, fails twice.  With the API unreachable the call raises
    inside the flow and the question is answered by the keyword fallback,
    not by the refusal string; and a [KeyboardInterrupt] raised by the
    similarity search reaches the caller. *)
Lemma ask_question_api_error_answered :
  let self := QAEngine_init
                (store_of [lit "Rocq is a proof assistant. It is free."])
                (lit "gsk_key") in
  let question := lit "what is rocq" in
  (exists request,
     post_unreachable request = Raise (Exception "ConnectionError")
     /\ ask_question post_unreachable self question None
        = ([SimilaritySearch question 5; ChatCompletion request],
           Return (lit "Rocq is a proof assistant.")))
  /\ lit "Rocq is a proof assistant." <> refusal
  /\ snd (ask_question post_unreachable
            (QAEngine_init (failing_store KeyboardInterrupt) (lit "gsk_key"))
            question None)
     = Raise KeyboardInterrupt.
Proof.
  cbv zeta. split; [|split].
  - eexists. split; reflexivity.
  - vm_compute. discriminate.
  - reflexivity.
Qed.

Lemma ask_question_normalizes_candidate_witness :
  snd (ask_question (post_ok (lit "  I'm sorry, I cannot help with that. "))
         (QAEngine_init (store_of [lit "Rocq is a proof assistant. It is free."])
                        (lit "gsk_key"))
         (lit "what is rocq") None)
  = Return refusal.
Proof.
  eapply (ask_question_normalizes_candidate
            (post_ok (lit "  I'm sorry, I cannot help with that. "))
            (QAEngine_init (store_of [lit "Rocq is a proof assistant. It is free."])
                           (lit "gsk_key"))
            (lit "what is rocq") None
            [doc_of (lit "Rocq is a proof assistant. It is free.")]
            _ (lit "I'm sorry, I cannot help with that.")).
  - reflexivity.
  - discriminate.
  - reflexivity.
  - right. right. left. reflexivity.
Defined.

(** C3, as stated, fails in its restriction to the model path: without an
    API key the candidate answer is the keyword fallback's, here
    [I'm sorry about the delay.], and the final check turns it into the
    refusal string as well. *)
Lemma ask_question_normalizes_fallback_answer :
  let self := QAEngine_init
                (store_of [lit "I'm sorry about the delay. The release is next week."])
                (lit "") in
  let question := lit "tell me about the delay" in
  use_groq self = false
  /\ _simple_answer question
       (lit "I'm sorry about the delay. The release is next week.")
     = lit "I'm sorry about the delay."
  /\ ask_question (post_ok (lit "unused")) self question None
     = ([SimilaritySearch question 5], Return refusal)
  /\ lit "I'm sorry about the delay." <> refusal.
Proof.
  cbv zeta. repeat split. vm_compute. discriminate.
Qed.

(** ** The fallback embedding *)

Section EmbeddingFacts.

Variable ops : FloatOps.

Lemma encode_words_length n i words self embedding :
  length (snd (encode_words ops n i words self embedding)) = length embedding.
Proof.
  revert i self embedding.
  induction words as [|word words IH]; intros i self embedding; simpl; [done|].
  destruct (vocab self !! word); rewrite IH; apply length_alter.
Qed.

(** Two embedder states that give the same index to every word of the
    list, and have the same size, accumulate the same vector. *)
Lemma encode_words_agree n i words s1 s2 embedding :
  (forall w, w ∈ words -> vocab s1 !! w = vocab s2 !! w) ->
  vocab_size s1 = vocab_size s2 ->
  snd (encode_words ops n i words s1 embedding)
  = snd (encode_words ops n i words s2 embedding).
Proof.
  revert i s1 s2 embedding.
  induction words as [|word words IH]; intros i s1 s2 embedding Hv Hn; simpl; [done|].
  pose proof (Hv word (list_elem_of_here _ _)) as Hw.
  destruct (vocab s1 !! word) as [idx|] eqn:H1; rewrite <- Hw.
  - apply IH; [|done]. intros w Hin. apply Hv. by apply list_elem_of_further.
  - rewrite Hn. apply IH; simpl; [|done].
    intros w Hin. destruct (decide (word = w)) as [->|Hne].
    + by rewrite !lookup_insert_eq.
    + rewrite !lookup_insert_ne by done. apply Hv. by apply list_elem_of_further.
Qed.

Lemma embed_query_snd text self :
  snd (embed_query ops text self)
  = l2_normalize ops
      (snd (encode_words ops (length (Py.split_ws (Py.lower text))) 0
              (Py.split_ws (Py.lower text)) self (replicate 384 (fzero ops)))).
Proof.
  unfold embed_query, _encode_texts, encode_text.
  by destruct (encode_words _ _ _ _ _ _).
Qed.

Lemma l2_normalize_length v : length (l2_normalize ops v) = length v.
Proof.
  unfold l2_normalize. destruct (gt_zero _ _); [apply length_map | done].
Qed.

(** The vocabulary only grows: an index, once given, stays. *)
Lemma encode_words_vocab_mono n i words self embedding w idx :
  vocab self !! w = Some idx ->
  vocab (fst (encode_words ops n i words self embedding)) !! w = Some idx.
Proof.
  revert i self embedding.
  induction words as [|word words IH]; intros i self embedding Hw; simpl; [done|].
  destruct (vocab self !! word) as [idx'|] eqn:Hword; apply IH; [done|].
  simpl. rewrite lookup_insert_ne; [done|]. intros ->. congruence.
Qed.

(** Running the loop again, in a state that holds every index the first run
    ended with, accumulates the same vector. *)
Lemma encode_words_replay n i words s1 s2 embedding :
  (forall w idx,
     vocab (fst (encode_words ops n i words s1 embedding)) !! w = Some idx ->
     vocab s2 !! w = Some idx) ->
  snd (encode_words ops n i words s1 embedding)
  = snd (encode_words ops n i words s2 embedding).
Proof.
  revert i s1 s2 embedding.
  induction words as [|word words IH]; intros i s1 s2 embedding H; simpl; [done|].
  simpl in H. destruct (vocab s1 !! word) as [idx|] eqn:H1.
  - rewrite (H word idx) by (by apply encode_words_vocab_mono).
    by apply IH.
  - rewrite (H word (vocab_size s1))
      by (apply encode_words_vocab_mono; simpl; apply lookup_insert_eq).
    by apply IH.
Qed.

Lemma embed_query_fst text self :
  fst (embed_query ops text self)
  = fst (encode_words ops (length (Py.split_ws (Py.lower text))) 0
           (Py.split_ws (Py.lower text)) self (replicate 384 (fzero ops))).
Proof.
  unfold embed_query, _encode_texts, encode_text.
  by destruct (encode_words _ _ _ _ _ _).
Qed.

Lemma after_queries_vocab_mono more self w idx :
  vocab self !! w = Some idx ->
  vocab (after_queries ops more self) !! w = Some idx.
Proof.
  unfold after_queries. revert self.
  induction more as [|text more IH]; intros self Hw; simpl; [done|].
  apply IH. rewrite embed_query_fst. by apply encode_words_vocab_mono.
Qed.

(** Within one embedder a text keeps its vector: embedding it again, after
    any further calls, returns what the first call returned. *)
Lemma embed_query_stable text self more :
  snd (embed_query ops text self)
  = snd (embed_query ops text
           (after_queries ops more (fst (embed_query ops text self)))).
Proof.
  rewrite !embed_query_snd. f_equal. apply encode_words_replay.
  intros w idx Hw. apply after_queries_vocab_mono.
  by rewrite embed_query_fst.
Qed.

(** C9, as the code has it: the vector of a text is a function of the text
    and of the vocabulary built by the earlier calls.  Two embedders whose
    vocabularies give the same index to every word of the text and have the
    same size return the same vector for it; one embedder returns the same
    vector for it again after any further calls; the vector has 384 entries
    and is the accumulated vector after the normalisation step. *)
Theorem embed_query_deterministic_in_vocab (text : str)
    (s1 s2 : SimpleEmbeddingFallback) (more : list str) :
  (forall w, w ∈ Py.split_ws (Py.lower text) -> vocab s1 !! w = vocab s2 !! w) ->
  vocab_size s1 = vocab_size s2 ->
  snd (embed_query ops text s1) = snd (embed_query ops text s2)
  /\ snd (embed_query ops text s1)
     = snd (embed_query ops text
              (after_queries ops more (fst (embed_query ops text s1))))
  /\ length (snd (embed_query ops text s1)) = 384
  /\ exists acc, length acc = 384
       /\ snd (embed_query ops text s1) = l2_normalize ops acc.
Proof.
  intros Hv Hn. split; [|split; [apply embed_query_stable|]];
    rewrite !embed_query_snd; [|split].
  - f_equal. by apply encode_words_agree.
  - by rewrite l2_normalize_length, encode_words_length, length_replicate.
  - eexists. split; [|reflexivity].
    by rewrite encode_words_length, length_replicate.
Qed.

End EmbeddingFacts.

Lemma embed_query_deterministic_in_vocab_witness :
  let s1 := after_queries float64 [lit "alpha beta gamma"] SimpleEmbeddingFallback_init in
  let s2 := after_queries float64 [lit "alpha beta delta"] SimpleEmbeddingFallback_init in
  let text := lit "Beta alpha omega" in
  snd (embed_query float64 text s1) = snd (embed_query float64 text s2)
  /\ snd (embed_query float64 text s1)
     = snd (embed_query float64 text
              (after_queries float64 [lit "zeta omega"; lit "eta"]
                 (fst (embed_query float64 text s1))))
  /\ length (snd (embed_query float64 text s1)) = 384
  /\ exists acc, length acc = 384
       /\ snd (embed_query float64 text s1) = l2_normalize float64 acc.
Proof.
  cbv zeta.
  apply (embed_query_deterministic_in_vocab float64 (lit "Beta alpha omega")
           (after_queries float64 [lit "alpha beta gamma"] SimpleEmbeddingFallback_init)
           (after_queries float64 [lit "alpha beta delta"] SimpleEmbeddingFallback_init)
           [lit "zeta omega"; lit "eta"]).
  - intros w Hw.
    change (Py.split_ws (Py.lower (lit "Beta alpha omega")))
      with [lit "beta"; lit "alpha"; lit "omega"] in Hw.
    repeat (apply elem_of_cons in Hw as [->|Hw]; [vm_compute; reflexivity|]).
    by apply elem_of_nil in Hw.
  - vm_compute. reflexivity.
Defined.

(** C9, as stated, fails: a new embedder gives the word [rocq] index 0, and
    an embedder that has embedded [hello] before gives it index 1, so the
    two vectors of the text [rocq] differ in their first entry. *)
Lemma embed_query_depends_on_prior_calls :
  snd (embed_query float64 (lit "rocq")
         (after_queries float64 [] SimpleEmbeddingFallback_init))
  <> snd (embed_query float64 (lit "rocq")
            (after_queries float64 [lit "hello"] SimpleEmbeddingFallback_init)).
Proof.
  intros H.
  apply (f_equal (fun v => match v with
                           | x :: _ => PrimFloat.eqb x 1%float
                           | [] => false
                           end)) in H.
  vm_compute in H. discriminate.
Qed.

(** * Further properties of the modules *)

(** ** [utils.py] *)

Lemma length_lit_dots : length (lit "...") = 3.
Proof. reflexivity. Qed.

(** [truncate_text] with a bound of at least 3: the result never exceeds
    the bound; a longer text is cut to its first [max_length - 3]
    characters followed by three dots, exactly [max_length] characters in
    all; and [count_tokens] of the result is at most a quarter of the
    bound. *)
Theorem truncate_text_within_bound (text : str) (max_length : Z) :
  (3 <= max_length)%Z ->
  (Z.of_nat (length (truncate_text text max_length)) <= max_length)%Z
  /\ ((max_length < Z.of_nat (length text))%Z ->
      truncate_text text max_length
      = take (Z.to_nat (max_length - 3)) text ++ lit "..."
      /\ Z.of_nat (length (truncate_text text max_length)) = max_length)
  /\ count_tokens (truncate_text text max_length) <= Z.to_nat max_length / 4.
Proof.
  intros Hm.
  assert (Hlen : (Z.of_nat (length (truncate_text text max_length)) <= max_length)%Z
                 /\ ((max_length < Z.of_nat (length text))%Z ->
                     truncate_text text max_length
                     = take (Z.to_nat (max_length - 3)) text ++ lit "..."
                     /\ Z.of_nat (length (truncate_text text max_length)) = max_length)).
  { unfold truncate_text, slice_to.
    destruct (decide (Z.of_nat (length text) <= max_length)%Z) as [Hle|Hgt].
    - split; [done|]. lia.
    - rewrite decide_True by lia.
      rewrite length_app, length_take, length_lit_dots. split; [lia|].
      intros _. split; [done|lia]. }
  destruct Hlen as [Hle Hcut]. split; [done|]. split; [done|].
  unfold count_tokens. apply Nat.Div0.div_le_mono. lia.
Qed.

Lemma truncate_text_within_bound_witness :
  (Z.of_nat (length (truncate_text (lit "The quick brown fox") 10)) <= 10)%Z
  /\ ((10 < Z.of_nat (length (lit "The quick brown fox")))%Z ->
      truncate_text (lit "The quick brown fox") 10
      = take (Z.to_nat (10 - 3)) (lit "The quick brown fox") ++ lit "..."
      /\ Z.of_nat (length (truncate_text (lit "The quick brown fox") 10)) = 10%Z)
  /\ count_tokens (truncate_text (lit "The quick brown fox") 10) <= Z.to_nat 10 / 4.
Proof. apply (truncate_text_within_bound (lit "The quick brown fox") 10). lia. Defined.

(** [truncate_text] with a bound below 3: a text longer than the bound
    comes back longer than the bound, since the three dots are always
    added and a negative slice bound counts from the end of the text. *)
Theorem truncate_text_small_bound_exceeded (text : str) (max_length : Z) :
  (max_length < 3)%Z ->
  (max_length < Z.of_nat (length text))%Z ->
  (max_length < Z.of_nat (length (truncate_text text max_length)))%Z
  /\ exists kept, truncate_text text max_length = kept ++ lit "..."
       /\ kept `prefix_of` text.
Proof.
  intros Hm Hlen. unfold truncate_text.
  rewrite decide_False by lia. split.
  - rewrite length_app, length_lit_dots. lia.
  - eexists. split; [done|]. unfold slice_to.
    destruct (decide _); apply prefix_take.
Qed.

Lemma truncate_text_small_bound_exceeded_witness :
  (2 < Z.of_nat (length (truncate_text (lit "abcdefghij") 2)))%Z
  /\ exists kept, truncate_text (lit "abcdefghij") 2 = kept ++ lit "..."
       /\ kept `prefix_of` lit "abcdefghij".
Proof.
  apply (truncate_text_small_bound_exceeded (lit "abcdefghij") 2); [lia|].
  vm_compute. reflexivity.
Defined.

Lemma invalid_replaced c :
  invalid_filename_char (if invalid_filename_char c then "_"%char else c) = false.
Proof. by destruct (invalid_filename_char c) eqn:Hc. Qed.

(** [sanitize_filename]: the result is never empty, has at most 100
    characters, holds none of the replaced characters, and does not start
    with a space or a dot; for a name of at most 100 characters it does not
    end with one either. *)
Theorem sanitize_filename_safe (filename : str) :
  sanitize_filename filename <> []
  /\ length (sanitize_filename filename) <= 100
  /\ Forall (fun c => invalid_filename_char c = false) (sanitize_filename filename)
  /\ (forall c, head (sanitize_filename filename) = Some c -> space_or_dot c = false)
  /\ (length filename <= 100 ->
      forall c, last (sanitize_filename filename) = Some c -> space_or_dot c = false).
Proof.
  unfold sanitize_filename.
  set (mapped := map _ filename).
  set (stripped := Py.rstrip_by space_or_dot (Py.lstrip_by space_or_dot mapped)).
  assert (Hmapped : Forall (fun c => invalid_filename_char c = false) mapped).
  { apply Forall_fmap, Forall_forall. intros c _. apply invalid_replaced. }
  assert (Hstripped : Forall (fun c => invalid_filename_char c = false) stripped).
  { eapply Forall_prefix; [apply rstrip_by_prefix|].
    eapply Forall_suffix; [apply lstrip_by_suffix|]. done. }
  assert (Hhead : forall c, head stripped = Some c -> space_or_dot c = false).
  { intros c H. by apply rstrip_by_head, lstrip_by_head in H. }
  assert (Hlast : forall c, last stripped = Some c -> space_or_dot c = false).
  { intros c. apply rstrip_by_last. }
  assert (Hshort : length stripped <= length filename).
  { destruct (rstrip_by_prefix space_or_dot (Py.lstrip_by space_or_dot mapped)) as [k Hk].
    destruct (lstrip_by_suffix space_or_dot mapped) as [k' Hk'].
    fold stripped in Hk.
    assert (length mapped = length filename) as <- by apply length_map.
    rewrite Hk', Hk, !length_app. lia. }
  destruct stripped as [|c0 rest] eqn:Hs.
  - repeat split; try done.
    + simpl. lia.
    + by repeat constructor.
    + by intros c [= <-].
    + by intros _ c [= <-].
  - split; [done|]. split; [rewrite length_take; lia|].
    split; [by apply Forall_take|]. split; [exact Hhead|].
    intros Hle. rewrite take_ge by lia. exact Hlast.
Qed.

(** A URL that [validate_url] accepts passes the crawler's check too, has a
    non-empty domain, and has a collection name. *)
Theorem validate_url_implies_crawlable
    (urlparse : str -> result ParseResult) (url : str) :
  validate_url urlparse url = true ->
  _is_valid_url urlparse url = true
  /\ exists domain,
       extract_domain urlparse url = Some domain /\ domain <> []
       /\ _generate_collection_name urlparse url = Return (sanitize_domain domain).
Proof.
  unfold validate_url, _is_valid_url, extract_domain, _generate_collection_name.
  destruct (urlparse url) as [p|e]; [|discriminate].
  destruct (netloc p) as [|c n] eqn:Hn; [discriminate|].
  intros H. apply elem_true_iff in H.
  split.
  - destruct (scheme p) eqn:Hs; [|done].
    apply elem_of_cons in H as [H|H]; [discriminate|].
    apply elem_of_cons in H as [H|H]; [discriminate|].
    by apply elem_of_nil in H.
  - by exists (c :: n).
Qed.

Lemma validate_url_implies_crawlable_witness :
  _is_valid_url Urllib.urlparse (lit "http://docs.example.org/a") = true
  /\ exists domain,
       extract_domain Urllib.urlparse (lit "http://docs.example.org/a") = Some domain
       /\ domain <> []
       /\ _generate_collection_name Urllib.urlparse (lit "http://docs.example.org/a")
          = Return (sanitize_domain domain).
Proof.
  apply (validate_url_implies_crawlable Urllib.urlparse (lit "http://docs.example.org/a")).
  reflexivity.
Defined.

(** ** Whitespace normalisation *)

Lemma last_cons_ne {A} (c : A) (s : list A) : s <> [] -> last (c :: s) = last s.
Proof. by destruct s. Qed.

Lemma single_spaced_cons c s :
  single_spaced (c :: s)
  = (if Py.isspace c
     then bool_decide (c = " "%char)
          && match s with d :: _ => negb (Py.isspace d) | [] => false end
     else true)
    && single_spaced s.
Proof. reflexivity. Qed.

Lemma sub_ws_runs_go_true_head s :
  (exists c, c ∈ s /\ Py.isspace c = false) ->
  exists d r, sub_ws_runs_go true s = d :: r /\ Py.isspace d = false.
Proof.
  induction s as [|c s IH]; intros (x & Hx & Hsp).
  - by apply elem_of_nil in Hx.
  - simpl. destruct (Py.isspace c) eqn:Hc.
    + apply IH. exists x. split; [|done].
      apply elem_of_cons in Hx as [->|Hx]; [congruence|done].
    + by eexists _, _.
Qed.

Lemma single_spaced_sub_ws_runs_go s b :
  (forall c, last s = Some c -> Py.isspace c = false) ->
  single_spaced (sub_ws_runs_go b s) = true.
Proof.
  revert b. induction s as [|c s IH]; intros b Hlast; [done|].
  simpl. destruct (Py.isspace c) eqn:Hc.
  - assert (Hne : s <> []).
    { intros ->. specialize (Hlast c eq_refl). congruence. }
    rewrite last_cons_ne in Hlast by done.
    destruct b; [by apply IH|].
    destruct (sub_ws_runs_go_true_head s) as (d & r & Hd & Hdsp).
    { destruct (last s) as [x|] eqn:Hx; [|by apply last_None in Hx].
      exists x. split; [by eapply last_Some_elem_of | by apply Hlast]. }
    specialize (IH true Hlast). rewrite Hd in IH |- *.
    rewrite single_spaced_cons, IH, Hdsp. reflexivity.
  - rewrite single_spaced_cons, Hc. simpl. apply IH.
    destruct s as [|c' s']; [done|]. by rewrite last_cons_ne in Hlast.
Qed.

Lemma tidy_sub_ws_runs_strip s : tidy (sub_ws_runs (Py.strip s)) = true.
Proof.
  unfold tidy, sub_ws_runs.
  rewrite single_spaced_sub_ws_runs_go by apply strip_last.
  pose proof (strip_head s) as Hh.
  destruct (Py.strip s) as [|c t]; [done|].
  specialize (Hh c eq_refl). simpl. rewrite Hh. simpl. by rewrite Hh.
Qed.

Lemma single_spaced_last s c :
  single_spaced s = true -> last s = Some c -> Py.isspace c = false.
Proof.
  induction s as [|a s IH]; [done|].
  rewrite single_spaced_cons. intros [Ha Hs]%andb_true_iff Hl.
  destruct s as [|a' s'].
  - injection Hl as ->. destruct (Py.isspace c); [|done].
    by rewrite andb_false_r in Ha.
  - apply IH; [done|]. by rewrite last_cons_ne in Hl.
Qed.

Lemma lstrip_by_id p s :
  (forall c, head s = Some c -> p c = false) -> Py.lstrip_by p s = s.
Proof.
  destruct s as [|c s]; [done|]. intros H. simpl. by rewrite (H c eq_refl).
Qed.

Lemma strip_tidy s : tidy s = true -> Py.strip s = s.
Proof.
  unfold tidy. intros [Hh Hs]%andb_true_iff.
  unfold Py.strip. rewrite lstrip_by_id.
  - unfold Py.rstrip_by. rewrite lstrip_by_id; [apply reverse_involutive|].
    intros c. rewrite head_reverse. by apply single_spaced_last.
  - intros c Hc. destruct s as [|a s]; [done|]. injection Hc as ->.
    by apply negb_true_iff in Hh.
Qed.

Lemma sub_ws_runs_single_spaced s :
  single_spaced s = true -> sub_ws_runs s = s.
Proof.
  unfold sub_ws_runs. induction s as [|c s IH]; [done|].
  rewrite single_spaced_cons. intros [Hc Hs]%andb_true_iff.
  specialize (IH Hs). simpl. destruct (Py.isspace c) eqn:Hsp.
  - apply andb_true_iff in Hc as [Hc Hnext].
    apply bool_decide_eq_true in Hc as ->.
    destruct s as [|d s']; [done|]. apply negb_true_iff in Hnext.
    simpl in IH |- *. rewrite Hnext in IH |- *. by rewrite IH.
  - by rewrite IH.
Qed.

(** [clean_html_text], whatever [html.unescape] does: in the result every
    whitespace character is a single space that stands between two other
    characters; and cleaning such a text again changes nothing, given that
    unescaping leaves it alone. *)
Theorem clean_html_text_tidy (unescape : str -> str) (text : str) :
  tidy (clean_html_text unescape text) = true
  /\ (unescape (clean_html_text unescape text) = clean_html_text unescape text ->
      clean_html_text unescape (clean_html_text unescape text)
      = clean_html_text unescape text).
Proof.
  split; [apply tidy_sub_ws_runs_strip|].
  intros Hu. unfold clean_html_text at 1. rewrite Hu.
  pose proof (tidy_sub_ws_runs_strip (unescape text)) as Ht.
  fold (clean_html_text unescape text) in Ht.
  rewrite strip_tidy by done.
  apply sub_ws_runs_single_spaced.
  by apply andb_true_iff in Ht as [_ Ht].
Qed.

(** ** [text_processor.py] *)

Lemma clean_text_shape (text : str) :
  _clean_text text
  = (if keep_line (sub_ws_runs (Py.strip text))
     then sub_ws_runs (Py.strip text) else [])
  /\ tidy (_clean_text text) = true
  /\ (_clean_text text <> [] ->
      10 <= length (_clean_text text) \/ search_terminal (_clean_text text) = true).
Proof.
  pose proof (tidy_sub_ws_runs_strip text) as Ht.
  assert (Heq : _clean_text text
                = if keep_line (sub_ws_runs (Py.strip text))
                  then sub_ws_runs (Py.strip text) else []).
  { destruct text as [|c text]; [done|].
    rewrite clean_text_one_line by done. cbv zeta.
    set (t := sub_ws_runs (Py.strip (c :: text))) in *.
    by rewrite !(strip_tidy t) by done. }
  rewrite Heq. destruct (keep_line _) eqn:Hk.
  - split; [done|]. split; [done|]. intros _.
    unfold keep_line in Hk. apply orb_true_iff in Hk as [Hk|Hk]; [|by right].
    left. by apply bool_decide_eq_true in Hk.
  - done.
Qed.

(** [TextProcessor._clean_text] keeps the text whole or drops it whole:
    the result is the whitespace-normalised text when that has at least 10
    characters or ends in [.], [!] or [?], and is empty otherwise; its only
    whitespace is single spaces between other characters. *)
Theorem clean_text_all_or_nothing (text : str) :
  _clean_text text
  = (if keep_line (sub_ws_runs (Py.strip text))
     then sub_ws_runs (Py.strip text) else [])
  /\ tidy (_clean_text text) = true
  /\ (_clean_text text <> [] ->
      10 <= length (_clean_text text) \/ search_terminal (_clean_text text) = true).
Proof. apply clean_text_shape. Qed.

(** Cleaning a cleaned text changes nothing. *)
Theorem clean_text_idempotent (text : str) :
  _clean_text (_clean_text text) = _clean_text text.
Proof.
  destruct (clean_text_shape text) as (Heq & Ht & _).
  destruct (clean_text_shape (_clean_text text)) as (Heq' & _).
  rewrite Heq'. rewrite strip_tidy by done.
  rewrite sub_ws_runs_single_spaced
    by (by apply andb_true_iff in Ht as [_ Ht]).
  rewrite Heq. destruct (keep_line (sub_ws_runs (Py.strip text))) eqn:Hk.
  - by rewrite Hk.
  - done.
Qed.

Section ChunkerMore.

Variable split_text : Z -> Z -> list str -> str -> result (list str).

(** A page whose normalised text is under 10 characters and does not end in
    [.], [!] or [?] gives no document, and the splitter is not consulted:
    the outcome is the same even where the splitter would raise. *)
Theorem process_and_chunk_short_page (self : TextProcessor)
    (content_data : gmap str str) (src content : str) :
  content_data !! lit "content" = Some content ->
  keep_line (sub_ws_runs (Py.strip content)) = false ->
  process_and_chunk split_text self (Some content_data) src = Return [].
Proof.
  intros Hc Hk. unfold process_and_chunk. rewrite Hc.
  destruct (clean_text_shape content) as (-> & _).
  by rewrite Hk.
Qed.

Lemma make_documents_page_content cd src chunks :
  page_content <$> make_documents cd src chunks = Py.strip <$> chunks.
Proof.
  apply list_eq. intros i. rewrite !list_lookup_fmap.
  destruct (make_documents cd src chunks !! i) as [d|] eqn:Hd; simpl.
  - destruct (make_documents_lookup _ _ _ _ _ Hd) as (chunk & -> & -> & _).
    done.
  - apply lookup_ge_None in Hd. rewrite make_documents_length in Hd.
    apply lookup_ge_None in Hd. by rewrite Hd.
Qed.

(** A page whose normalised text is kept goes to the splitter as that one
    normalised line, with the processor's sizes and the fixed separators.
    The documents are the splitter's chunks, stripped, in the same order
    and number; an exception of the splitter reaches the caller. *)
Theorem process_and_chunk_follows_splitter (self : TextProcessor)
    (content_data : gmap str str) (src content : str) :
  content_data !! lit "content" = Some content ->
  keep_line (sub_ws_runs (Py.strip content)) = true ->
  match split_text (chunk_size self) (chunk_overlap self) separators
                   (sub_ws_runs (Py.strip content)) with
  | Return chunks =>
      exists docs,
        process_and_chunk split_text self (Some content_data) src = Return docs
        /\ page_content <$> docs = Py.strip <$> chunks
  | Raise e =>
      process_and_chunk split_text self (Some content_data) src = Raise e
  end.
Proof.
  intros Hc Hk. unfold process_and_chunk. rewrite Hc.
  destruct (clean_text_shape content) as (Heq & Ht & _).
  rewrite Hk in Heq. rewrite Heq in Ht |- *.
  rewrite (strip_tidy (sub_ws_runs (Py.strip content))) by done.
  destruct (sub_ws_runs (Py.strip content)) as [|c t] eqn:Hline;
    [by vm_compute in Hk|].
  destruct (split_text _ _ _ _) as [chunks|e]; [|done].
  eexists. split; [done|]. apply make_documents_page_content.
Qed.

End ChunkerMore.

Lemma process_and_chunk_short_page_witness :
  process_and_chunk (fun _ _ _ _ => Raise (Exception "ValueError"))
    TextProcessor_default
    (Some {[ lit "title" := lit "Home"; lit "content" := lit "  Welcome " ]})
    (lit "https://example.com")
  = Return [].
Proof.
  apply (process_and_chunk_short_page (fun _ _ _ _ => Raise (Exception "ValueError"))
           TextProcessor_default
           {[ lit "title" := lit "Home"; lit "content" := lit "  Welcome " ]}
           (lit "https://example.com") (lit "  Welcome "));
    vm_compute; reflexivity.
Defined.

Lemma process_and_chunk_follows_splitter_witness :
  exists docs,
    process_and_chunk sentence_splitter TextProcessor_default (Some example_page)
      (lit "https://rocq-prover.org/about") = Return docs
    /\ page_content <$> docs
       = Py.strip <$> [lit "Rocq is a proof assistant"; lit " It checks proofs";
                       lit " It is free software"].
Proof.
  exact (process_and_chunk_follows_splitter sentence_splitter TextProcessor_default
           example_page (lit "https://rocq-prover.org/about")
           (lit "Rocq is a proof assistant. It checks proofs. It is free software")
           eq_refl eq_refl).
Defined.

(** ** [format_metadata] on the metadata of a document *)

Lemma metadata_dict_lookups m :
  metadata_dict m !! lit "source_url" = Some (PStr (source_url m))
  /\ metadata_dict m !! lit "page_title" = Some (PStr (page_title m))
  /\ metadata_dict m !! lit "chunk_index" = Some (PInt (Z.of_nat (chunk_index m)))
  /\ metadata_dict m !! lit "total_chunks" = Some (PInt (Z.of_nat (total_chunks m))).
Proof.
  unfold metadata_dict. repeat split.
Qed.

(** For the document at position [i] of a page, [format_metadata] returns
    the source, the title and the label [Chunk: i+1/n], where [n] is the
    number of documents of the page; the number shown lies between 1 and
    [n]. *)
Theorem format_metadata_of_document
    (split_text : Z -> Z -> list str -> str -> result (list str))
    (self : TextProcessor) (content_data : option (gmap str str)) (src : str)
    (docs : list Document) (i : nat) (d : Document) :
  process_and_chunk split_text self content_data src = Return docs ->
  docs !! i = Some d ->
  format_metadata (metadata_dict (metadata d))
  = Return (Py.join (lit " | ")
              [lit "Source: " ++ src;
               lit "Title: "
               ++ default (lit "Untitled Page") (content_data ≫= (.!! lit "title"));
               lit "Chunk: " ++ decimal (Z.of_nat i + 1) ++ lit "/"
               ++ decimal (Z.of_nat (length docs))])
  /\ 1 <= i + 1 <= length docs.
Proof.
  intros H Hi.
  apply process_and_chunk_inv in H as [->|(cd & chunks & -> & ->)]; [done|].
  destruct (make_documents_lookup _ _ _ _ _ Hi) as (chunk & Hc & _ & Hidx & Htot & Hsrc & Htitle).
  split.
  - destruct (metadata_dict_lookups (metadata d)) as (H1 & H2 & H3 & H4).
    unfold format_metadata. rewrite H1, H2, H3, H4.
    rewrite Hidx, Htot, Hsrc, Htitle, make_documents_length. reflexivity.
  - apply lookup_lt_Some in Hi. lia.
Qed.

Lemma format_metadata_of_document_witness :
  exists d,
    format_metadata (metadata_dict (metadata d))
    = Return (lit "Source: https://rocq-prover.org/about | Title: About | Chunk: 2/3")
    /\ 1 <= 1 + 1 <= 3.
Proof.
  eexists.
  exact (format_metadata_of_document sentence_splitter TextProcessor_default
           (Some example_page) (lit "https://rocq-prover.org/about") _ 1 _
           ltac:(vm_compute; reflexivity) ltac:(reflexivity)).
Defined.

(** ** [SimpleEmbeddingFallback]: batches, the vocabulary, blank texts *)

Lemma lower_char_idempotent c : Py.lower_char (Py.lower_char c) = Py.lower_char c.
Proof. destruct c as [[] [] [] [] [] [] [] []]; reflexivity. Qed.

Lemma lower_idempotent s : Py.lower (Py.lower s) = Py.lower s.
Proof.
  unfold Py.lower. induction s as [|c s IH]; [done|].
  simpl. by rewrite lower_char_idempotent, IH.
Qed.

Lemma lower_char_space c : Py.isspace c = true -> Py.lower_char c = c.
Proof. destruct c as [[] [] [] [] [] [] [] []]; (discriminate || reflexivity). Qed.

Lemma split_ws_blank s :
  Forall (fun c => Py.isspace c = true) s -> Py.split_ws (Py.lower s) = [].
Proof.
  unfold Py.split_ws, Py.lower. induction 1 as [|c s Hc _ IH]; [done|].
  simpl. by rewrite (lower_char_space c Hc), Hc.
Qed.

Section EmbeddingMore.

Variable ops : FloatOps.

Lemma encode_text_fst text self :
  fst (encode_text ops text self)
  = fst (encode_words ops (length (Py.split_ws (Py.lower text))) 0
           (Py.split_ws (Py.lower text)) self (replicate 384 (fzero ops))).
Proof. unfold encode_text. by destruct (encode_words _ _ _ _ _ _). Qed.

Lemma encode_text_snd text self :
  snd (encode_text ops text self)
  = l2_normalize ops
      (snd (encode_words ops (length (Py.split_ws (Py.lower text))) 0
              (Py.split_ws (Py.lower text)) self (replicate 384 (fzero ops)))).
Proof. unfold encode_text. by destruct (encode_words _ _ _ _ _ _). Qed.

Lemma embed_query_encode_text text self :
  embed_query ops text self = encode_text ops text self.
Proof.
  unfold embed_query, _encode_texts. by destruct (encode_text ops text self).
Qed.

Lemma encode_texts_cons text texts self :
  _encode_texts ops (text :: texts) self
  = (fst (_encode_texts ops texts (fst (encode_text ops text self))),
     snd (encode_text ops text self)
     :: snd (_encode_texts ops texts (fst (encode_text ops text self)))).
Proof.
  simpl. destruct (encode_text ops text self) as [s1 e]. simpl.
  by destruct (_encode_texts ops texts s1).
Qed.

(** [embed_documents] returns one vector for each text, in order, and every
    vector has 384 entries. *)
Theorem embed_documents_shape (texts : list str) (self : SimpleEmbeddingFallback) :
  length (snd (embed_documents ops texts self)) = length texts
  /\ Forall (fun v => length v = 384) (snd (embed_documents ops texts self)).
Proof.
  unfold embed_documents. revert self.
  induction texts as [|text texts IH]; intros self; [by split|].
  rewrite encode_texts_cons. simpl.
  destruct (IH (fst (encode_text ops text self))) as [Hl Hf].
  split; [by rewrite Hl|]. constructor; [|done].
  by rewrite encode_text_snd, l2_normalize_length, encode_words_length,
    length_replicate.
Qed.

Lemma vocab_wf_init : vocab_wf SimpleEmbeddingFallback_init.
Proof.
  unfold vocab_wf, SimpleEmbeddingFallback_init. simpl.
  split; [|split].
  - intros w i H. by rewrite lookup_empty in H.
  - intros w1 w2 i H. by rewrite lookup_empty in H.
  - apply map_size_empty.
Qed.

Lemma encode_words_wf n i words self embedding :
  vocab_wf self -> vocab_wf (fst (encode_words ops n i words self embedding)).
Proof.
  revert i self embedding.
  induction words as [|word words IH]; intros i self embedding Hwf; [done|].
  simpl. destruct (vocab self !! word) as [idx|] eqn:Hword; apply IH; [done|].
  destruct Hwf as (Hlt & Hinj & Hsize). unfold vocab_wf. simpl.
  split; [|split].
  - intros w j. rewrite lookup_insert. case_decide as Hw.
    + intros [= <-]. lia.
    + intros Hj. apply Hlt in Hj. lia.
  - intros w1 w2 j. rewrite !lookup_insert.
    case_decide as H1; case_decide as H2; subst.
    + done.
    + intros [= <-] Hj. apply Hlt in Hj. lia.
    + intros Hj [= <-]. apply Hlt in Hj. lia.
    + apply Hinj.
  - rewrite map_size_insert_None by done. lia.
Qed.

Lemma encode_words_present n i words self embedding w :
  w ∈ words ->
  is_Some (vocab (fst (encode_words ops n i words self embedding)) !! w).
Proof.
  revert i self embedding.
  induction words as [|word words IH]; intros i self embedding Hin.
  - by apply elem_of_nil in Hin.
  - apply elem_of_cons in Hin as [->|Hin].
    + simpl. destruct (vocab self !! word) as [idx|] eqn:Hword.
      * exists idx. by apply encode_words_vocab_mono.
      * eexists. apply encode_words_vocab_mono. simpl. apply lookup_insert_eq.
    + simpl. destruct (vocab self !! word); by apply IH.
Qed.

Lemma encode_texts_vocab_mono texts self w idx :
  vocab self !! w = Some idx ->
  vocab (fst (_encode_texts ops texts self)) !! w = Some idx.
Proof.
  revert self. induction texts as [|text texts IH]; intros self Hw; [done|].
  rewrite encode_texts_cons. simpl. apply IH.
  rewrite encode_text_fst. by apply encode_words_vocab_mono.
Qed.

(** The vocabulary stays a numbering under [embed_documents]: if, before
    the call, the indices are below [vocab_size], pairwise different, and
    [vocab_size] is the number of words, the same holds after it; old words
    keep their index, and every word of the embedded texts has one. *)
Theorem embed_documents_keeps_numbering (texts : list str)
    (self : SimpleEmbeddingFallback) :
  vocab_wf self ->
  vocab_wf (fst (embed_documents ops texts self))
  /\ (forall w idx, vocab self !! w = Some idx ->
        vocab (fst (embed_documents ops texts self)) !! w = Some idx)
  /\ (forall text w, text ∈ texts -> w ∈ Py.split_ws (Py.lower text) ->
        is_Some (vocab (fst (embed_documents ops texts self)) !! w)).
Proof.
  unfold embed_documents. intros Hwf. split; [|split].
  - revert self Hwf. induction texts as [|text texts IH]; intros self Hwf; [done|].
    rewrite encode_texts_cons. simpl. apply IH.
    rewrite encode_text_fst. by apply encode_words_wf.
  - intros w idx. apply encode_texts_vocab_mono.
  - clear Hwf. revert self.
    induction texts as [|text texts IH]; intros self t w Ht Hw.
    + by apply elem_of_nil in Ht.
    + rewrite encode_texts_cons. simpl.
      apply elem_of_cons in Ht as [->|Ht]; [|by eapply IH].
      destruct (encode_words_present (length (Py.split_ws (Py.lower text))) 0
                  (Py.split_ws (Py.lower text)) self
                  (replicate 384 (fzero ops)) w Hw) as [idx Hidx].
      exists idx. apply encode_texts_vocab_mono. by rewrite encode_text_fst.
Qed.

(** The vector that [embed_documents] stored for a text is the vector that
    [embed_query] computes for the same text afterwards, on the same
    embedder. *)
Theorem embed_query_matches_embed_documents (texts : list str)
    (self : SimpleEmbeddingFallback) (i : nat) (text : str) :
  texts !! i = Some text ->
  snd (embed_documents ops texts self) !! i
  = Some (snd (embed_query ops text (fst (embed_documents ops texts self)))).
Proof.
  unfold embed_documents. revert self i.
  induction texts as [|t texts IH]; intros self i Hi; [done|].
  rewrite encode_texts_cons. simpl. destruct i as [|i]; simpl in *.
  - injection Hi as ->. f_equal.
    rewrite encode_text_snd, embed_query_snd. f_equal.
    apply encode_words_replay. intros w idx Hw.
    apply encode_texts_vocab_mono. by rewrite encode_text_fst.
  - by apply IH.
Qed.

(** A text without words (empty, or whitespace only) leaves the embedder
    as it is, and its vector is the zero vector, provided the norm of the
    zero vector is not positive. *)
Theorem embed_query_blank_text (text : str) (self : SimpleEmbeddingFallback) :
  Forall (fun c => Py.isspace c = true) text ->
  gt_zero ops (linalg_norm ops (replicate 384 (fzero ops))) = false ->
  embed_query ops text self = (self, replicate 384 (fzero ops)).
Proof.
  intros Hblank Hnorm.
  rewrite embed_query_encode_text. unfold encode_text.
  rewrite (split_ws_blank text Hblank). cbn [encode_words].
  unfold l2_normalize. by rewrite Hnorm.
Qed.

(** The embedding ignores letter case: the lower-cased text has the same
    vector and the same effect on the vocabulary. *)
Theorem embed_query_ignores_case (text : str) (self : SimpleEmbeddingFallback) :
  embed_query ops (Py.lower text) self = embed_query ops text self.
Proof.
  rewrite !embed_query_encode_text. unfold encode_text.
  by rewrite lower_idempotent.
Qed.

End EmbeddingMore.

Lemma embed_documents_keeps_numbering_witness :
  let texts := [lit "Rocq is a proof assistant"; lit "a proof is checked"] in
  let s := fst (embed_documents float64 texts SimpleEmbeddingFallback_init) in
  vocab_wf s
  /\ (forall w idx, vocab SimpleEmbeddingFallback_init !! w = Some idx ->
        vocab s !! w = Some idx)
  /\ (forall text w, text ∈ texts -> w ∈ Py.split_ws (Py.lower text) ->
        is_Some (vocab s !! w)).
Proof.
  apply (embed_documents_keeps_numbering float64
           [lit "Rocq is a proof assistant"; lit "a proof is checked"]
           SimpleEmbeddingFallback_init).
  apply vocab_wf_init.
Defined.

Lemma embed_query_matches_embed_documents_witness :
  let texts := [lit "Rocq is a proof assistant"; lit "a proof is checked"] in
  snd (embed_documents float64 texts SimpleEmbeddingFallback_init) !! 1
  = Some (snd (embed_query float64 (lit "a proof is checked")
                 (fst (embed_documents float64 texts SimpleEmbeddingFallback_init)))).
Proof.
  apply (embed_query_matches_embed_documents float64
           [lit "Rocq is a proof assistant"; lit "a proof is checked"]
           SimpleEmbeddingFallback_init 1 (lit "a proof is checked")).
  reflexivity.
Defined.

Lemma embed_query_blank_text_witness :
  embed_query float64 [" "%char; Py.nl; " "%char] SimpleEmbeddingFallback_init
  = (SimpleEmbeddingFallback_init, replicate 384 (fzero float64)).
Proof.
  apply (embed_query_blank_text float64 [" "%char; Py.nl; " "%char]
           SimpleEmbeddingFallback_init).
  - repeat constructor.
  - vm_compute. reflexivity.
Defined.

(** ** [_simple_answer]: where its answers come from *)

Lemma list_filter_Forall {A} (f : A -> bool) (l : list A) :
  Forall (fun x => f x = true) (List.filter f l).
Proof.
  induction l as [|x l IH]; simpl; [constructor|].
  destruct (f x) eqn:Hx; [by constructor | done].
Qed.

Lemma list_filter_elem_of {A} (f : A -> bool) (l : list A) (x : A) :
  x ∈ List.filter f l -> x ∈ l /\ f x = true.
Proof.
  intros H. apply list_elem_of_In, filter_In in H as [H1 H2].
  split; [by apply list_elem_of_In | done].
Qed.

Lemma elem_of_take_1 {A} (n : nat) (l : list A) (x : A) : x ∈ take n l -> x ∈ l.
Proof.
  intros H. rewrite <- (take_drop n l). apply elem_of_app. by left.
Qed.

(** The sentences an answer is made of are stripped pieces of the context. *)
Lemma picked_sentences (f : str -> bool) (n : nat) (context x : str) :
  x ∈ take n (map Py.strip (List.filter f (Py.split_char "." context))) ->
  exists s, s ∈ Py.split_char "." context /\ x = Py.strip s.
Proof.
  intros H. apply elem_of_take_1 in H.
  apply list_elem_of_In, in_map_iff in H as (s & <- & Hs).
  apply list_elem_of_In, list_filter_elem_of in Hs as [Hs _].
  by exists s.
Qed.

(** An answer of [_simple_answer] is the refusal string, or one to three
    sentences of the context (pieces between full stops, stripped), joined
    by a full stop and a space and closed by a full stop. *)
Theorem simple_answer_grounded (question context : str) :
  _simple_answer question context = refusal
  \/ exists sentences,
       sentences <> [] /\ length sentences <= 3
       /\ (forall x, x ∈ sentences ->
             exists s, s ∈ Py.split_char "." context /\ x = Py.strip s)
       /\ _simple_answer question context
          = Py.join (lit ". ") sentences ++ lit ".".
Proof.
  unfold _simple_answer.
  destruct (Py.any _ _).
  - match goal with
    | |- context [map Py.strip (List.filter ?f (Py.split_char "." context))] =>
        destruct (map Py.strip (List.filter f (Py.split_char "." context)))
          as [|a l] eqn:Hrel
    end.
    + destruct (List.filter (fun word : str => bool_decide (3 < length word))
                            (Py.split_ws (Py.lower question))) as [|w ws];
        [by left|].
      match goal with
      | |- context [map Py.strip (List.filter ?f (Py.split_char "." context))] =>
          destruct (map Py.strip (List.filter f (Py.split_char "." context)))
            as [|a l] eqn:Hmatch
      end; [by left|].
      right. exists (take 3 (a :: l)). split; [done|].
      split; [rewrite length_take; lia|]. split; [|done].
      intros x Hx. rewrite <- Hmatch in Hx. by eapply picked_sentences.
    + right. exists (take 2 (a :: l)). split; [done|].
      split; [rewrite length_take; lia|]. split; [|done].
      intros x Hx. rewrite <- Hrel in Hx. by eapply picked_sentences.
  - destruct (List.filter (fun word : str => bool_decide (3 < length word))
                          (Py.split_ws (Py.lower question))) as [|w ws];
      [by left|].
    match goal with
    | |- context [map Py.strip (List.filter ?f (Py.split_char "." context))] =>
        destruct (map Py.strip (List.filter f (Py.split_char "." context)))
          as [|a l] eqn:Hmatch
    end; [by left|].
    right. exists (take 3 (a :: l)). split; [done|].
    split; [rewrite length_take; lia|]. split; [|done].
    intros x Hx. rewrite <- Hmatch in Hx. by eapply picked_sentences.
Qed.











(** ** [ask_question]: its calls, its request, its answer *)


Lemma last_n_app_exact {A} (n : nat) (old recent : list A) :
  length recent = n -> Py.last_n n (old ++ recent) = recent.
Proof.
  intros Hn. unfold Py.last_n. rewrite length_app, Hn.
  replace (length old + n - n) with (length old) by lia.
  by rewrite drop_app_length.
Qed.


Lemma history_messages_last_n (l : list (gmap str str)) :
  history_messages (Some l) = history_messages (Some (Py.last_n 6 l)).
Proof.
  destruct l as [|x l]; [done|].
  assert (Hl : length (Py.last_n 6 (x :: l)) <= 6).
  { unfold Py.last_n. rewrite length_drop. lia. }
  unfold history_messages at 1.
  destruct (Py.last_n 6 (x :: l)) as [|y l'] eqn:H; [done|].
  unfold history_messages.
  replace (Py.last_n 6 (y :: l')) with (y :: l'); [done|].
  unfold Py.last_n. by replace (length (y :: l') - 6) with 0 by lia.
Qed.

(** Only the last six entries of the chat history reach the request:
    whatever comes before them changes nothing. *)
Theorem build_messages_last_six (question context : str)
    (old recent : list (gmap str str)) :
  length recent = 6 ->
  build_messages question context (Some (old ++ recent))
  = build_messages question context (Some recent).
Proof.
  intros Hn. unfold build_messages.
  rewrite (history_messages_last_n (old ++ recent)).
  by rewrite (last_n_app_exact 6 old recent Hn).
Qed.

Lemma post_check_cases answer :
  post_check answer = refusal
  \/ (post_check answer = answer /\ answer <> []
      /\ Py.contains (lit "the answer is not available on the provided website")
                     (Py.lower answer) = false).
Proof.
  unfold post_check. destruct (needs_refusal answer) eqn:Hn; [by left|].
  destruct (Py.contains _ _) eqn:Hc; [by left|].
  right. split; [done|]. split; [|done]. by intros ->.
Qed.

Section AskQuestionMore.

Variable requests_post : ChatRequest -> result Response.

Lemma candidate_answer_trace self question context msgs :
  fst (candidate_answer requests_post self question context msgs)
  = if use_groq self then [ChatCompletion (groq_request self msgs)] else [].
Proof.
  unfold candidate_answer, call, bind, try_except, ret, raise.
  destruct (use_groq self); [|done].
  destruct (requests_post _) as [resp|e]; simpl; [|done].
  destruct (decide _); [|done].
  by destruct (json_content resp).
Qed.

(** The calls of [ask_question]: always one similarity search, for the
    question with [k = 5]; after it one chat-completion request, made only
    when the search returned documents and an API key is set; nothing
    else. *)
Theorem ask_question_calls (self : QAEngine) (question : str)
    (chat_history : option (list (gmap str str))) :
  fst (ask_question requests_post self question chat_history)
  = SimilaritySearch question 5
    :: match similarity_search (vector_store self) question 5 with
       | Return (d :: docs) =>
           if use_groq self
           then [ChatCompletion
                   (groq_request self
                      (build_messages question (context_of (d :: docs))
                                      chat_history))]
           else []
       | _ => []
       end.
Proof.
  destruct (similarity_search (vector_store self) question 5) as [[|d docs]|e] eqn:Hs.
  - unfold ask_question, call, bind, try_except. by rewrite Hs.
  - destruct (candidate_answer_returns requests_post self question
                (context_of (d :: docs))
                (build_messages question (context_of (d :: docs)) chat_history))
      as (t & answer & Hc).
    erewrite ask_question_with_documents by (try exact Hs; try exact Hc; done).
    pose proof (candidate_answer_trace self question (context_of (d :: docs))
                  (build_messages question (context_of (d :: docs)) chat_history))
      as Ht.
    rewrite Hc in Ht. simpl in Ht. simpl. by rewrite Ht.
  - unfold ask_question, call, bind, try_except. rewrite Hs.
    by destruct (isinstance_Exception e).
Qed.

(** What [ask_question] returns is never the empty string, and if it
    contains the refusal phrase, in any letter case, it is the refusal
    string itself. *)
Theorem ask_question_answer_shape (self : QAEngine) (question : str)
    (chat_history : option (list (gmap str str))) (answer : str) :
  snd (ask_question requests_post self question chat_history) = Return answer ->
  answer <> []
  /\ (Py.contains (lit "the answer is not available on the provided website")
                  (Py.lower answer) = true ->
      answer = refusal).
Proof.
  assert (Hrefusal : refusal <> []) by done.
  destruct (similarity_search (vector_store self) question 5) as [[|d docs]|e] eqn:Hs.
  - unfold ask_question, call, bind, try_except. rewrite Hs. simpl.
    by intros [= <-].
  - destruct (candidate_answer_returns requests_post self question
                (context_of (d :: docs))
                (build_messages question (context_of (d :: docs)) chat_history))
      as (t & candidate & Hc).
    erewrite ask_question_with_documents by (try exact Hs; try exact Hc; done).
    cbn [snd]. intros [= <-].
    destruct (post_check_cases candidate) as [->|(-> & Hne & Hno)]; [done|].
    split; [done|]. by rewrite Hno.
  - unfold ask_question, call, bind, try_except. rewrite Hs.
    destruct (isinstance_Exception e); simpl; [|discriminate].
    by intros [= <-].
Qed.

(** The model path when all goes well: with an API key, documents found,
    status 200 and a content that passes the final check, [ask_question]
    returns the model's content, stripped, after one search and one
    request. *)
Theorem ask_question_returns_model_answer (self : QAEngine) (question : str)
    (chat_history : option (list (gmap str str)))
    (docs : list Document) (model_content : str) :
  similarity_search (vector_store self) question 5 = Return docs ->
  docs <> [] ->
  use_groq self = true ->
  requests_post (groq_request self
                   (build_messages question (context_of docs) chat_history))
  = Return {| status_code := 200; json_content := Return model_content |} ->
  needs_refusal (Py.strip model_content) = false ->
  Py.contains (lit "the answer is not available on the provided website")
              (Py.lower (Py.strip model_content)) = false ->
  ask_question requests_post self question chat_history
  = ([SimilaritySearch question 5;
      ChatCompletion (groq_request self
                        (build_messages question (context_of docs) chat_history))],
     Return (Py.strip model_content)).
Proof.
  intros Hs Hne Hg Hp Hn Hc.
  erewrite ask_question_with_documents;
    [|done..|by apply candidate_answer_primary].
  unfold post_check. by rewrite Hn, Hc.
Qed.

End AskQuestionMore.

Lemma build_messages_last_six_witness :
  let turn (r c : string) : gmap str str :=
    {[ lit "role" := lit r; lit "content" := lit c ]} in
  let recent := [turn "user" "a"; turn "assistant" "b"; turn "user" "c";
                 turn "assistant" "d"; turn "user" "e"; turn "assistant" "f"] in
  build_messages (lit "q") (lit "ctx")
    (Some ([turn "user" "old"; turn "assistant" "older"] ++ recent))
  = build_messages (lit "q") (lit "ctx") (Some recent).
Proof.
  cbv zeta.
  apply (build_messages_last_six (lit "q") (lit "ctx")). reflexivity.
Defined.

Lemma ask_question_answer_shape_witness :
  lit "Rocq is a proof assistant." <> []
  /\ (Py.contains (lit "the answer is not available on the provided website")
                  (Py.lower (lit "Rocq is a proof assistant.")) = true ->
      lit "Rocq is a proof assistant." = refusal).
Proof.
  apply (ask_question_answer_shape post_unreachable
           (QAEngine_init (store_of [lit "Rocq is a proof assistant. It is free."])
                          (lit "gsk_key"))
           (lit "what is rocq") None).
  reflexivity.
Defined.

Lemma ask_question_returns_model_answer_witness :
  exists request,
    ask_question (post_ok (lit " Rocq is a proof assistant. "))
      (QAEngine_init (store_of [lit "Rocq is a proof assistant. It is free."])
                     (lit "gsk_key"))
      (lit "what is rocq") None
    = ([SimilaritySearch (lit "what is rocq") 5; ChatCompletion request],
       Return (lit "Rocq is a proof assistant.")).
Proof.
  eexists.
  apply (ask_question_returns_model_answer (post_ok (lit " Rocq is a proof assistant. "))
           (QAEngine_init (store_of [lit "Rocq is a proof assistant. It is free."])
                          (lit "gsk_key"))
           (lit "what is rocq") None
           [doc_of (lit "Rocq is a proof assistant. It is free.")]
           (lit " Rocq is a proof assistant. "));
    first [reflexivity | discriminate].
Defined.

(** ** [crawler.py] *)




Section CrawlFacts.

Variable urlparse : str -> result ParseResult.
Variable session_get : str -> result str.
Variable parse : str -> result Crawler.Soup.

(** The requests of [crawl]: one GET of the URL itself when the URL has a
    scheme and a network location, and none at all otherwise, in which case
    [crawl] raises. *)
Theorem crawl_requests (url : str) :
  fst (Crawler.crawl urlparse session_get parse url)
  = (if _is_valid_url urlparse url then [url] else [])
  /\ (_is_valid_url urlparse url = false ->
      snd (Crawler.crawl urlparse session_get parse url)
      = Raise (Exception "Exception")).
Proof.
  unfold Crawler.crawl. destruct (_is_valid_url urlparse url); simpl; [|done].
  split; [|done].
  destruct (session_get url) as [body|e]; [|done].
  destruct (parse body) as [soup|e]; [|done].
  by destruct (Py.strip _).
Qed.

(** The outcome of [crawl].  A page, when one is returned, has the keys
    [title], [content] and [url]; its [url] is the URL asked for, and its
    content is not blank.  An exception that [crawl] raises is a plain
    [Exception], or one from outside [Exception] that the fetch or the
    parser raised. *)
Theorem crawl_outcome (url : str) :
  (forall page,
     snd (Crawler.crawl urlparse session_get parse url) = Return (Some page) ->
     page !! lit "url" = Some url
     /\ is_Some (page !! lit "title")
     /\ exists content, page !! lit "content" = Some content
          /\ Py.strip content <> []
          /\ _is_valid_url urlparse url = true)
  /\ (forall e,
        snd (Crawler.crawl urlparse session_get parse url) = Raise e ->
        e = Exception "Exception" \/ isinstance_Exception e = false).
Proof.
  unfold Crawler.crawl, Crawler.reraise.
  destruct (_is_valid_url urlparse url); simpl.
  - destruct (session_get url) as [body|e0]; simpl.
    + destruct (parse body) as [soup|e0]; simpl.
      * destruct (Py.strip (Crawler._extract_content soup)) as [|c r] eqn:Hc; simpl.
        -- split; intros ?; discriminate.
        -- split; [|intros ?; discriminate].
           intros page [= <-]. split; [done|]. split; [by eexists|].
           exists (Crawler._extract_content soup).
           split; [done|]. by rewrite Hc.
      * split; [intros ?; by destruct (isinstance_Exception e0)|].
        intros e. destruct (isinstance_Exception e0) eqn:He0.
        -- intros [= <-]. by left.
        -- intros [= <-]. by right.
    + split; [intros ?; by destruct (isinstance_Exception e0)|].
      intros e. destruct (isinstance_Exception e0) eqn:He0.
      * intros [= <-]. by left.
      * intros [= <-]. by right.
  - split; [intros ?; discriminate|]. intros e [= <-]. by left.
Qed.

End CrawlFacts.

(** ** [create_store], and the path from a page to its collection *)

Section CreateStoreFacts.

Variable urlparse : str -> result ParseResult.
Variable from_documents : list Document -> str -> result VectorStore.

(** [create_store] on an empty list raises [ValueError] before Chroma is
    called.  On a non-empty list whose first source URL parses, Chroma is
    called once, with all the documents and with the collection name of
    that URL, which matches [^[A-Za-z0-9][A-Za-z0-9.-]*$] and has at most 50
    characters; the result is Chroma's. *)
Theorem create_store_collection (d : Document) (documents : list Document)
    (p : ParseResult) :
  urlparse (source_url (metadata d)) = Return p ->
  create_store urlparse from_documents [] = ([], Raise (Exception "ValueError"))
  /\ exists name,
       create_store urlparse from_documents (d :: documents)
       = ([name], from_documents (d :: documents) name)
       /\ name = sanitize_domain (netloc p)
       /\ matches_collection_name name = true
       /\ length name <= 50.
Proof.
  intros Hp. split; [done|]. exists (sanitize_domain (netloc p)).
  unfold create_store, _generate_collection_name. rewrite Hp.
  split; [done|]. split; [done|]. split; [apply sanitize_domain_matches|].
  unfold sanitize_domain. rewrite length_take. lia.
Qed.

(** From page to collection: the documents that [process_and_chunk] makes
    for a URL, when there are any, are stored under the collection name of
    that same URL. *)
Theorem create_store_after_chunking
    (split_text : Z -> Z -> list str -> str -> result (list str))
    (self : TextProcessor) (content_data : option (gmap str str)) (url : str)
    (docs : list Document) (p : ParseResult) :
  process_and_chunk split_text self content_data url = Return docs ->
  docs <> [] ->
  urlparse url = Return p ->
  create_store urlparse from_documents docs
  = ([sanitize_domain (netloc p)],
     from_documents docs (sanitize_domain (netloc p))).
Proof.
  intros H Hne Hp.
  apply process_and_chunk_inv in H as [->|(cd & chunks & -> & ->)]; [done|].
  destruct (make_documents cd url chunks) as [|d rest] eqn:Hd; [done|].
  assert (Hsrc : source_url (metadata d) = url).
  { assert (Hl : make_documents cd url chunks !! 0 = Some d) by by rewrite Hd.
    by destruct (make_documents_lookup _ _ _ _ _ Hl) as (_ & _ & _ & _ & _ & -> & _). }
  unfold create_store, _generate_collection_name. by rewrite Hsrc, Hp.
Qed.

End CreateStoreFacts.

Lemma create_store_collection_witness :
  create_store Urllib.urlparse (fun _ _ => Return empty_store) []
  = ([], Raise (Exception "ValueError"))
  /\ exists name,
       create_store Urllib.urlparse (fun _ _ => Return empty_store)
         [doc_of (lit "Rocq is a proof assistant.")]
       = ([name], Return empty_store)
       /\ name = sanitize_domain (lit "rocq-prover.org")
       /\ matches_collection_name name = true
       /\ length name <= 50.
Proof.
  apply (create_store_collection Urllib.urlparse (fun _ _ => Return empty_store)
           (doc_of (lit "Rocq is a proof assistant.")) []
           {| scheme := lit "https"; netloc := lit "rocq-prover.org";
              rest := lit "/about" |}).
  reflexivity.
Defined.

Lemma create_store_after_chunking_witness :
  exists docs,
    create_store Urllib.urlparse (fun _ _ => Return empty_store) docs
    = ([lit "rocq-prover.org"], Return empty_store).
Proof.
  eexists.
  exact (create_store_after_chunking Urllib.urlparse (fun _ _ => Return empty_store)
           sentence_splitter TextProcessor_default (Some example_page)
           (lit "https://www.rocq-prover.org/about") _
           {| scheme := lit "https"; netloc := lit "www.rocq-prover.org";
              rest := lit "/about" |}
           ltac:(vm_compute; reflexivity) ltac:(discriminate) eq_refl).
Defined.

(** ** From the crawler to the chunker *)

(** The page that [crawl] returns is one that [process_and_chunk] can
    read: it has the keys it looks up, so the documents made from it carry
    the crawled URL and the title the crawler extracted (the stripped text
    of the [title] tag, or [Untitled Page] when the page has none). *)
Theorem process_and_chunk_after_crawl
    (urlparse : str -> result ParseResult) (session_get : str -> result str)
    (parse : str -> result Crawler.Soup)
    (split_text : Z -> Z -> list str -> str -> result (list str))
    (self : TextProcessor) (url : str) (page : gmap str str)
    (docs : list Document) :
  snd (Crawler.crawl urlparse session_get parse url) = Return (Some page) ->
  process_and_chunk split_text self (Some page) url = Return docs ->
  exists body soup,
    session_get url = Return body /\ parse body = Return soup
    /\ page !! lit "content" = Some (Crawler._extract_content soup)
    /\ forall d, d ∈ docs ->
         source_url (metadata d) = url
         /\ page_title (metadata d) = Crawler._extract_title soup.
Proof.
  intros Hcrawl Hpc.
  unfold Crawler.crawl, Crawler.reraise in Hcrawl.
  destruct (_is_valid_url urlparse url); [|discriminate].
  destruct (session_get url) as [body|e];
    [|by destruct (isinstance_Exception e)].
  destruct (parse body) as [soup|e] eqn:Hparse;
    [|by destruct (isinstance_Exception e)].
  destruct (Py.strip (Crawler._extract_content soup)); [discriminate|].
  injection Hcrawl as <-. exists body, soup.
  split; [done|]. split; [done|]. split; [done|].
  intros d Hd.
  apply process_and_chunk_inv in Hpc as [->|(cd & chunks & [= <-] & ->)];
    [by apply elem_of_nil in Hd|].
  apply list_elem_of_lookup in Hd as [i Hi].
  destruct (make_documents_lookup _ _ _ _ _ Hi) as (_ & _ & _ & _ & _ & Hs & Ht).
  split; [done|]. rewrite Ht. reflexivity.
Qed.

Lemma process_and_chunk_after_crawl_witness :
  let soup := {| Crawler.title_tag := Some (lit " About Rocq ");
                 Crawler.main_content :=
                   Some (lit "Rocq is a proof assistant. It checks proofs");
                 Crawler.body := None |} in
  exists page docs,
    snd (Crawler.crawl Urllib.urlparse (fun _ => Return (lit "<html>"))
           (fun _ => Return soup) (lit "https://rocq-prover.org/about"))
    = Return (Some page)
    /\ length docs = 2
    /\ forall d, d ∈ docs ->
         source_url (metadata d) = lit "https://rocq-prover.org/about"
         /\ page_title (metadata d) = lit "About Rocq".
Proof.
  cbv zeta. eexists _, _. split; [reflexivity|]. split; [shelve|].
  destruct (process_and_chunk_after_crawl Urllib.urlparse
              (fun _ => Return (lit "<html>"))
              (fun _ => Return {| Crawler.title_tag := Some (lit " About Rocq ");
                                  Crawler.main_content :=
                                    Some (lit "Rocq is a proof assistant. It checks proofs");
                                  Crawler.body := None |})
              sentence_splitter TextProcessor_default
              (lit "https://rocq-prover.org/about") _ _
              eq_refl ltac:(vm_compute; reflexivity))
    as (body & soup & _ & [= <-] & _ & H).
  exact H.
  Unshelve. reflexivity.
Defined.
